(** * terraform-provider-cloudportalapi: the ticket data source

    A shallow embedding of the provider's Go code:
    - [internal/logger]: the process-wide, lazily initialised file logger;
    - [internal/provider]: [providerConfigure], [dataSourceTicketRead] and
      the flatten helpers that turn the decoded [Ticket] into the values
      handed to the Terraform SDK.

    Go values are modelled as follows.  A slice [[]T] is either nil or an
    allocated sequence ([slice T]); a [map[string]T] is a [gmap string T]
    whose iteration order is chosen by the runtime ([RangeOrder]); [int] is
    [Z]; [float64] is a primitive binary64 float; a [*string] is an
    [option string]; an [error] is its message. *)

From Stdlib Require Import ZArith Ascii String PrimFloat.
From stdpp Require Import gmap strings list fin_maps pretty.

Open Scope string_scope.
Open Scope list_scope.
Open Scope Z_scope.

(** ** Go slices *)

(** A slice is nil or points at an array; a nil slice has length 0 and
    ranges over nothing. *)
Inductive slice (A : Type) : Type :=
| nil_slice : slice A
| mk_slice (elts : list A) : slice A.
Arguments nil_slice {A}.
Arguments mk_slice {A} elts.

Definition elems {A} (s : slice A) : list A :=
  match s with
  | nil_slice => []
  | mk_slice l => l
  end.

Definition len {A} (s : slice A) : nat := length (elems s).

Definition is_nil {A} (s : slice A) : bool :=
  match s with
  | nil_slice => true
  | mk_slice _ => false
  end.

(** [append(s, x)]: the result is always allocated. *)
Definition append {A} (s : slice A) (x : A) : slice A :=
  mk_slice (elems s ++ [x]).

(** ** The decoded records (ticket.go) *)

Module User.
Record t := mk {
  ID : string;
  Email : string;
  UserPrincipalName : string;
  DisplayName : string;
  Roles : slice string }.
End User.

Module Participant.
Record t := mk {
  UserInfo : User.t;
  Role : string }.
End Participant.

Module Comment.
Record t := mk {
  ID : string;
  Createdat : string;
  Modifiedat : string;
  Author : User.t;
  Content : string;
  Loginuser : User.t;
  Iseditable : bool;
  Iseditmode : bool;
  Contentcopy : string }.
End Comment.

Module Action.
Record t := mk {
  ActionName : string;
  RequiredProperties : slice string;
  Type_ : string;
  MinNumOfCatalogItems : Z }.
End Action.

Module InvoicePeriod.
Record t := mk {
  InvoicePeriod : string;
  ActualCost : float;
  StartDate : string;
  EndDate : string }.
End InvoicePeriod.

Module BillingItem.
Record t := mk {
  ID : string;
  PartitionKey : string;
  SubscriptionName : string;
  InvoicePeriods : gmap string InvoicePeriod.t }.
End BillingItem.

Module Change.
Record t := mk {
  PropertyName : string;
  OldValue : gmap string string;
  NewValue : gmap string string }.
End Change.

Module HistoryItem.
Record t := mk {
  Date : string;
  Author : slice User.t;
  Changes : slice Change.t }.
End HistoryItem.

Module CatalogField.
Record t := mk {
  Key : string;
  Label : string;
  Value : string;
  IsMandatory : bool;
  LookupFunction : option string;
  LookupValues : slice string;
  HintValue : option string;
  InputType : option string;
  InputFormat : option string;
  EnableToggleBy : option string;
  Disabled : option string }.
End CatalogField.

Module CatalogItem.
Record t := mk {
  Name : string;
  ResourceName : string;
  Label : string;
  CatalogItemDisclaimer : option string;
  CatalogItemCloudPlatform : string;
  TicketTypes : slice string;
  Active : bool;
  CatalogItemVersion : Z;
  CatalogItemCreated : string;
  CatalogItemApproved : string;
  CatalogItemApprovedBy : string;
  CatalogItemIcon : option string;
  CatalogFields : slice CatalogField.t;
  Variables : gmap string string;
  ResourceContractName : option string;
  ResourceContainerName : option string }.
End CatalogItem.

Module Attachment.
Record t := mk {
  URL : string;
  UploadDateTime : string;
  UploadedBy : slice User.t;
  Filename : string }.
End Attachment.

Module ClarityCode.
Record t := mk {
  Code : string;
  Description : string;
  CostCenter : string;
  Emails : slice string;
  Tower : string }.
End ClarityCode.

Module Ticket.
Record t := mk {
  ID : string;
  TicketNo : Z;
  Title : string;
  Description : string;
  Status : string;
  SubStatus : string;
  StatusChangedAt : string;
  CreatedAt : string;
  CreatedBy : User.t;
  ChangedBy : User.t;
  ClarityCode : ClarityCode.t;
  Participants : slice Participant.t;
  Comments : slice Comment.t;
  Attachments : slice Attachment.t;
  BillingItems : slice BillingItem.t;
  HistoryItems : slice HistoryItem.t;
  ValidActions : slice Action.t;
  EditableProperties : slice string;
  MandatoryProperties : slice string;
  ETag : string;
  Type_ : string;
  ServiceProvider : string;
  CloudPlatform : string;
  CatalogItems : slice CatalogItem.t }.
End Ticket.

(** ** Values of type [interface{}] *)

#[local] Set Warnings "-register-all".

(** The dynamic values the flatten helpers build and [d.Set] receives. *)
Inductive Value : Type :=
| VString (s : string)
| VInt (n : Z)
| VBool (b : bool)
| VFloat (f : float)
| VUser (u : User.t)
| VStrings (l : slice string)
| VParticipants (l : slice Participant.t)
| VList (l : slice Value)
| VMap (m : gmap string Value).

(** ** Ranging over a Go map *)

(** [for k, v := range m] visits every entry once, in an order the
    runtime picks.  An instance fixes one visiting order per map; the
    statements below hold for every instance, that is, whatever order the
    runtime picks. *)
Class RangeOrder := {
  range_map : ∀ {V : Type}, gmap string V → list (string * V);
  range_map_perm : ∀ (V : Type) (m : gmap string V),
    range_map m ≡ₚ map_to_list m }.

#[export] Program Instance canonical_order : RangeOrder :=
  {| range_map := λ V m, map_to_list m |}.
Next Obligation. done. Qed.

(** ** The flatten helpers (ticket.go) *)

(** The shape shared by every list helper:
    [var result []interface{}; for _, x := range xs { result = append(result, f x) }]. *)
Definition range_append {A} (body : A → Value) (xs : list A) : slice Value :=
  foldl (λ result x, append result (body x)) nil_slice xs.

(** The map literal built for one user. *)
Definition user_entry (user : User.t) : Value :=
  VMap {[
    "email" := VString (User.Email user);
    "userprincipalname" := VString (User.UserPrincipalName user);
    "id" := VString (User.ID user);
    "displayname" := VString (User.DisplayName user);
    "roles" := VStrings (User.Roles user) ]}.

Definition flattenUsers (users : slice User.t) : slice Value :=
  range_append user_entry (elems users).

Definition comment_entry (comment : Comment.t) : Value :=
  VMap {[
    "id" := VString (Comment.ID comment);
    "createdat" := VString (Comment.Createdat comment);
    "modifiedat" := VString (Comment.Modifiedat comment);
    "author" := VUser (Comment.Author comment);
    "content" := VString (Comment.Content comment);
    "loginuser" := VUser (Comment.Loginuser comment);
    "iseditable" := VBool (Comment.Iseditable comment);
    "iseditmode" := VBool (Comment.Iseditmode comment);
    "contentcopy" := VString (Comment.Contentcopy comment) ]}.

Definition flattenComments (comments : slice Comment.t) : slice Value :=
  range_append comment_entry (elems comments).

Definition attachment_entry (attachment : Attachment.t) : Value :=
  VMap {[
    "url" := VString (Attachment.URL attachment);
    "uploaddatetime" := VString (Attachment.UploadDateTime attachment);
    "uploadedby" := VList (flattenUsers (Attachment.UploadedBy attachment));
    "filename" := VString (Attachment.Filename attachment) ]}.

Definition flattenAttachments (attachments : slice Attachment.t) : slice Value :=
  range_append attachment_entry (elems attachments).

(** [flattened := make(map[string]interface{}); for k, v := range m { flattened[k] = v }] *)
Definition flattenStringMap `{RangeOrder} (m : gmap string string)
    : gmap string Value :=
  foldl (λ flattened kv, <[kv.1 := VString kv.2]> flattened) ∅ (range_map m).

Definition flattenStringList (list : slice string) : slice Value :=
  range_append VString (elems list).

(** The element built for one entry of the period map: the map key, not
    the record's own [InvoicePeriod] field, becomes ["invoiceperiod"]. *)
Definition period_entry (kv : string * InvoicePeriod.t) : Value :=
  let '(key, period) := kv in
  VMap {[
    "invoiceperiod" := VString key;
    "actualcost" := VFloat (InvoicePeriod.ActualCost period);
    "startdate" := VString (InvoicePeriod.StartDate period);
    "enddate" := VString (InvoicePeriod.EndDate period) ]}.

Definition flattenInvoicePeriods `{RangeOrder}
    (invoicePeriods : gmap string InvoicePeriod.t) : slice Value :=
  range_append period_entry (range_map invoicePeriods).

Definition billing_entry `{RangeOrder} (item : BillingItem.t) : Value :=
  VMap {[
    "id" := VString (BillingItem.ID item);
    "partitionkey" := VString (BillingItem.PartitionKey item);
    "subscriptionname" := VString (BillingItem.SubscriptionName item);
    "invoiceperiods" :=
      VList (flattenInvoicePeriods (BillingItem.InvoicePeriods item)) ]}.

Definition flattenBillingItems `{RangeOrder}
    (billingItems : slice BillingItem.t) : slice Value :=
  range_append billing_entry (elems billingItems).

Definition change_entry `{RangeOrder} (change : Change.t) : Value :=
  VMap {[
    "propertyname" := VString (Change.PropertyName change);
    "oldvalue" := VMap (flattenStringMap (Change.OldValue change));
    "newvalue" := VMap (flattenStringMap (Change.NewValue change)) ]}.

Definition flattenChanges `{RangeOrder} (changes : slice Change.t)
    : slice Value :=
  range_append change_entry (elems changes).

Definition history_entry `{RangeOrder} (historyItem : HistoryItem.t) : Value :=
  VMap {[
    "date" := VString (HistoryItem.Date historyItem);
    "author" := VList (flattenUsers (HistoryItem.Author historyItem));
    "changes" := VList (flattenChanges (HistoryItem.Changes historyItem)) ]}.

Definition flattenHistoryItems `{RangeOrder}
    (historyItems : slice HistoryItem.t) : slice Value :=
  range_append history_entry (elems historyItems).

Definition action_entry (action : Action.t) : Value :=
  VMap {[
    "actionname" := VString (Action.ActionName action);
    "requiredproperties" :=
      VList (flattenStringList (Action.RequiredProperties action));
    "type" := VString (Action.Type_ action);
    "minnumofcatalogitems" := VInt (Action.MinNumOfCatalogItems action) ]}.

Definition flattenActions (actions : slice Action.t) : slice Value :=
  range_append action_entry (elems actions).

(** ** internal/logger *)

(** A Go [(value, error)] pair coming back from a collaborator. *)
Inductive result (A : Type) : Type :=
| Success (a : A)
| Failure (err : string).
Arguments Success {A} a.
Arguments Failure {A} err.

(** The open [*os.File] behind the logger: the lines appended by this
    process, and whether [Close] was called on it. *)
Record File := mkFile {
  file_name : string;
  file_closed : bool;
  file_lines : list string }.

(** [type Logger struct { *log.Logger; file *os.File; mu sync.Mutex }].
    The embedded [log.Logger] writes to [file]; runs are sequential, so
    the mutex is always free when a call starts and is not represented. *)
Record Logger := mkLogger {
  logger_prefix : string;
  logger_file : option File }.

(** The package-level variables [logInstance] and [once], and what the
    process printed on standard output. *)
Record Process := mkProcess {
  once_done : bool;
  logInstance : option Logger;
  stdout : list string }.

Definition initial_process : Process :=
  {| once_done := false; logInstance := None; stdout := [] |}.

(** [fmt.Sprintln] on string operands: operands separated by one space
    (the trailing newline ends the line and is not stored). *)
Definition Sprintln (operands : list string) : string :=
  String.concat " " operands.

(** [Println] of the embedded logger: one line appended to the file; a write to a
    closed file fails and the failure is dropped.  The date, time and
    source-position header that the flags add between prefix and message
    is left out of the stored line. *)
Definition Logger_Println (l : Logger) (operands : list string) : Logger :=
  match logger_file l with
  | Some f =>
      if file_closed f then l
      else {| logger_prefix := logger_prefix l;
              logger_file := Some {|
                file_name := file_name f;
                file_closed := false;
                file_lines :=
                  file_lines f ++ [logger_prefix l +:+ Sprintln operands] |} |}
  | None => l
  end.

Definition NewLogger (os_OpenFile : string → result File)
    (debugEnabled : bool) (p : Process)
    : (option Logger * option string) * Process :=
  let p1 :=
    if once_done p then p
    else
      match os_OpenFile "provider-debug.log" with
      | Failure err =>
          {| once_done := true;
             logInstance := logInstance p;
             stdout := stdout p ++ [Sprintln ["Error opening file:"; err]] |}
      | Success file =>
          let l := {| logger_prefix := "Info : "; logger_file := Some file |} in
          {| once_done := true;
             logInstance :=
               Some (if debugEnabled
                     then Logger_Println l ["Logger initialized"] else l);
             stdout := stdout p |}
      end in
  match logInstance p1 with
  | None => ((None, Some "logger not initialized"), p1)
  | Some l => ((Some l, None), p1)
  end.

(** The three severity helpers share one shape. *)
Definition log_with (severity : string) (message : string) (p : Process)
    : Process :=
  match logInstance p with
  | Some l =>
      {| once_done := once_done p;
         logInstance := Some (Logger_Println l [severity; message]);
         stdout := stdout p |}
  | None => p
  end.

Definition Debug (message : string) (p : Process) : Process :=
  log_with "DEBUG: " message p.

Definition Info (message : string) (p : Process) : Process :=
  log_with "INFO: " message p.

Definition Error (message : string) (p : Process) : Process :=
  log_with "ERROR: " message p.

Definition Close (p : Process) : Process :=
  match logInstance p with
  | Some l =>
      match logger_file l with
      | Some f =>
          {| once_done := once_done p;
             logInstance := Some {|
               logger_prefix := logger_prefix l;
               logger_file := Some {|
                 file_name := file_name f;
                 file_closed := true;
                 file_lines := file_lines f |} |};
             stdout := stdout p |}
      | None => p
      end
  | None => p
  end.

(** Everything written to the log file so far. *)
Definition log_lines (p : Process) : list string :=
  match logInstance p with
  | Some l => match logger_file l with Some f => file_lines f | None => [] end
  | None => []
  end.

(** ** The Terraform SDK surface used by the provider *)

(** [schema.ResourceData]: the attribute store and the resource ID.
    [Set] records the assignment; the SDK's own check of the value against
    the schema happens outside this repository, and every call site here
    drops the error [Set] returns. *)
Record ResourceData := mkResourceData {
  rd_attrs : gmap string Value;
  rd_id : string }.

Definition Get_string (d : ResourceData) (key : string) : string :=
  match rd_attrs d !! key with
  | Some (VString s) => s
  | _ => ""
  end.

Definition Get_bool (d : ResourceData) (key : string) : bool :=
  match rd_attrs d !! key with
  | Some (VBool b) => b
  | _ => false
  end.

Definition Set_attr (key : string) (v : Value) (d : ResourceData)
    : ResourceData :=
  {| rd_attrs := <[key := v]> (rd_attrs d); rd_id := rd_id d |}.

Definition SetId (id : string) (d : ResourceData) : ResourceData :=
  {| rd_attrs := rd_attrs d; rd_id := id |}.

(** ** schema.go: the top level of [TicketSchema] *)

Inductive ValueType :=
| TypeBool | TypeInt | TypeFloat | TypeString | TypeList | TypeMap | TypeSet.

(** [Elem] is either a nested resource (named here by the function that
    builds it) or a primitive type. *)
Inductive SchemaElem :=
| ElemResource (builder : string)
| ElemType (t : ValueType).

Module Schema.
Record t := mk {
  Type_ : ValueType;
  Required : bool;
  Optional : bool;
  Elem : option SchemaElem }.
End Schema.

Definition optional (ty : ValueType) (elem : option SchemaElem) : Schema.t :=
  Schema.mk ty false true elem.
Definition optional_list (builder : string) : Schema.t :=
  optional TypeList (Some (ElemResource builder)).


(** ** The collaborators: file system, identity, HTTP, gzip, JSON *)

Record ClientSecretCredential := mkCredential {
  cred_tenantID : string;
  cred_clientID : string;
  cred_clientSecret : string }.

(** [http.Header] is a [map[string][]string]. *)
Definition Header_Set (key value : string) (h : gmap string (list string))
    : gmap string (list string) :=
  <[key := [value]]> h.

Definition Header_Add (key value : string) (h : gmap string (list string))
    : gmap string (list string) :=
  <[key := default [] (h !! key) ++ [value]]> h.

Definition Header_Get (key : string) (h : gmap string (list string))
    : string :=
  match h !! key with
  | Some (v :: _) => v
  | _ => ""
  end.

Record Request := mkRequest {
  req_Method : string;
  req_URL : string;
  req_Header : gmap string (list string) }.

(** A byte stream read to its end: what [io.ReadAll] gets out of it, and
    the read error that stopped it, if any. *)
Record Stream := mkStream {
  stream_data : string;
  stream_err : option string }.

Record Response := mkResponse {
  resp_Status : string;
  resp_StatusCode : Z;
  resp_Header : gmap string (list string);
  resp_Body : Stream }.

(** What each external call answers.  Every one of them is called at most
    once per run, so a function of the arguments is enough. *)
Record World := mkWorld {
  os_OpenFile : string → result File;
  azidentity_NewClientSecretCredential :
    string → string → string → result ClientSecretCredential;
  http_NewRequest : string → string → option string;
  azi_GetToken : ClientSecretCredential → list string → result string;
  Client_Do : Request → result Response;
  gzip_NewReader : Stream → result Stream;
  json_Unmarshal : string → Ticket.t * option string }.

(** ** Runs of provider code *)

(** The calls a run makes to its collaborators and to the top-level
    flatten helpers, in program order. *)
Inductive Event :=
| EvNewRequest (method url : string) (err : option string)
| EvGetToken (scopes : list string) (r : result string)
| EvDo (req : Request) (r : result Response)
| EvBodyClose
| EvGzipNewReader (err : option string)
| EvReadAll (err : option string)
| EvUnmarshal (data : string) (err : option string)
| EvFlatten (helper : string).

Record St := mkSt {
  proc : Process;
  rd : ResourceData;
  trace : list Event }.

(** A Go call returns, or ends the process ([log.Fatal] is [os.Exit(1)]
    after printing), or panics. *)
Inductive Res (A : Type) : Type :=
| Ok (a : A)
| Exit (msg : string)
| Panic (msg : string).
Arguments Ok {A} a.
Arguments Exit {A} msg.
Arguments Panic {A} msg.

Definition M (A : Type) : Type := St → Res A * St.

#[export] Instance M_ret : MRet M := λ A a s, (Ok a, s).

#[export] Instance M_bind : MBind M := λ A B f m s,
  match m s with
  | (Ok a, s') => f a s'
  | (Exit msg, s') => (Exit msg, s')
  | (Panic msg, s') => (Panic msg, s')
  end.

Definition on_process (f : Process → Process) : M unit := λ s,
  (Ok tt, {| proc := f (proc s); rd := rd s; trace := trace s |}).

Definition on_resource (f : ResourceData → ResourceData) : M unit := λ s,
  (Ok tt, {| proc := proc s; rd := f (rd s); trace := trace s |}).

Definition emit (e : Event) : M unit := λ s,
  (Ok tt, {| proc := proc s; rd := rd s; trace := trace s ++ [e] |}).

Definition d_Get_string (key : string) : M string := λ s,
  (Ok (Get_string (rd s) key), s).

Definition d_Get_bool (key : string) : M bool := λ s,
  (Ok (Get_bool (rd s) key), s).

Definition log_Fatal {A} (msg : string) : M A := λ s, (Exit msg, s).

Definition panic {A} (msg : string) : M A := λ s, (Panic msg, s).

Definition nil_dereference : string :=
  "runtime error: invalid memory address or nil pointer dereference".

(** [defer cleanup; body]: the deferred call runs when the body returns
    and when it panics, not when the process exits. *)
Definition defer {A} (cleanup : M unit) (body : M A) : M A := λ s,
  match body s with
  | (Exit msg, s') => (Exit msg, s')
  | (Ok a, s') =>
      match cleanup s' with
      | (Ok _, s'') => (Ok a, s'')
      | (Exit msg, s'') => (Exit msg, s'')
      | (Panic msg, s'') => (Panic msg, s'')
      end
  | (Panic msg, s') =>
      match cleanup s' with
      | (Ok _, s'') => (Panic msg, s'')
      | (Exit msg', s'') => (Exit msg', s'')
      | (Panic msg', s'') => (Panic msg', s'')
      end
  end.

Definition call_NewLogger (w : World) (debugEnabled : bool)
    : M (option Logger * option string) := λ s,
  (Ok (NewLogger (os_OpenFile w) debugEnabled (proc s)).1,
   {| proc := (NewLogger (os_OpenFile w) debugEnabled (proc s)).2;
      rd := rd s; trace := trace s |}).

Definition logger_Debug (message : string) : M unit := on_process (Debug message).
Definition logger_Info (message : string) : M unit := on_process (Info message).
Definition logger_Error (message : string) : M unit := on_process (Error message).
Definition logger_Close : M unit := on_process Close.

(** ** provider.go *)

(** The [Client *http.Client] field is always a fresh [&http.Client{}];
    what it answers is [Client_Do] of the world. *)
Record CloudportalAPIClient := mkClient {
  BaseURL : string;
  APIKey : string;
  aziclient : option ClientSecretCredential;
  isdebug : bool;
  tenantID : string }.

Definition NewCloudportalAPIClient (azidentity : option ClientSecretCredential)
    (apiKey baseURL tenID : string) (debuginfo : bool) : CloudportalAPIClient :=
  {| BaseURL := baseURL;
     APIKey := apiKey;
     aziclient := azidentity;
     isdebug := debuginfo;
     tenantID := tenID |}.

(** The result pair is [(interface{}, error)]; [None] is nil. *)
Definition providerConfigure (w : World)
    : M (option CloudportalAPIClient * option string) :=
  apiKey ← d_Get_string "api_key";
  baseURL ← d_Get_string "base_url";
  debugInfo ← d_Get_bool "debug_info";
  (if debugInfo then
     r ← call_NewLogger w true;
     match r.2 with
     | Some err => log_Fatal ("Error initializing logger:" +:+ err)
     | None => mret tt
     end
   else mret tt);;
  logger_Info "start";;
  if bool_decide (apiKey = "") || bool_decide (baseURL = "") then
    logger_Error "API key and base URL must be provided";;
    mret (None, Some "API key and base URL must be provided")
  else
    clientID ← d_Get_string "clientID";
    clientSecret ← d_Get_string "clientSecret";
    tenantID ← d_Get_string "tenantID";
    client ←
      match azidentity_NewClientSecretCredential w tenantID clientID clientSecret with
      | Failure err => logger_Error err;; mret None
      | Success c => mret (Some c)
      end;
    let apiclient :=
      NewCloudportalAPIClient client apiKey baseURL tenantID debugInfo in
    mret (Some apiclient, None).

(** ** ticket.go: [dataSourceTicketRead] *)

Definition byte_of_Z (n : Z) : ascii := ascii_of_N (Z.to_N n).

(** The conversion [string(n)] of an integer: the UTF-8 encoding of the
    code point [n], or of U+FFFD when [n] is not a valid code point. *)
Definition string_of_rune (r : Z) : string :=
  if (r <? 0) || (0x10FFFF <? r) || ((0xD800 <=? r) && (r <=? 0xDFFF)) then
    String (byte_of_Z 0xEF) (String (byte_of_Z 0xBF) (String (byte_of_Z 0xBD) ""))
  else if r <? 0x80 then
    String (byte_of_Z r) ""
  else if r <? 0x800 then
    String (byte_of_Z (Z.lor 0xC0 (Z.shiftr r 6)))
      (String (byte_of_Z (Z.lor 0x80 (Z.land r 0x3F))) "")
  else if r <? 0x10000 then
    String (byte_of_Z (Z.lor 0xE0 (Z.shiftr r 12)))
      (String (byte_of_Z (Z.lor 0x80 (Z.land (Z.shiftr r 6) 0x3F)))
        (String (byte_of_Z (Z.lor 0x80 (Z.land r 0x3F))) ""))
  else
    String (byte_of_Z (Z.lor 0xF0 (Z.shiftr r 18)))
      (String (byte_of_Z (Z.lor 0x80 (Z.land (Z.shiftr r 12) 0x3F)))
        (String (byte_of_Z (Z.lor 0x80 (Z.land (Z.shiftr r 6) 0x3F)))
          (String (byte_of_Z (Z.lor 0x80 (Z.land r 0x3F))) ""))).

Definition StatusOK : Z := 200.

(** What [reader] holds after the gzip check: the response body itself, or
    a [*gzip.Reader], which is nil when [gzip.NewReader] failed. *)
Inductive Reader :=
| BodyReader (body : Stream)
| GzipReader (gz : option Stream).

Definition io_ReadAll (reader : Reader) : M (string * option string) :=
  match reader with
  | BodyReader body | GzipReader (Some body) =>
      emit (EvReadAll (stream_err body));;
      mret (stream_data body, stream_err body)
  | GzipReader None => panic nil_dereference
  end.

Definition gzipReader_Close (gz : option Stream) : M unit :=
  match gz with
  | Some _ => mret tt
  | None => panic nil_dereference
  end.

Definition d_Set (key : string) (v : Value) : M unit :=
  on_resource (Set_attr key v).

(** A call of one of the flatten helpers from the read function. *)
Definition call {A} (helper : string) (v : A) : M A :=
  emit (EvFlatten helper);; mret v.

(** The assignments at the end of the read, in program order. *)
Definition set_ticket `{RangeOrder} (ticket : Ticket.t) : M unit :=
  d_Set "id" (VString (Ticket.ID ticket));;
  d_Set "ticketno" (VInt (Ticket.TicketNo ticket));;
  d_Set "title" (VString (Ticket.Title ticket));;
  d_Set "description" (VString (Ticket.Description ticket));;
  d_Set "status" (VString (Ticket.Status ticket));;
  d_Set "substatus" (VString (Ticket.SubStatus ticket));;
  d_Set "statuschangedat" (VString (Ticket.StatusChangedAt ticket));;
  d_Set "createdat" (VString (Ticket.CreatedAt ticket));;
  d_Set "createdby" (VUser (Ticket.CreatedBy ticket));;
  d_Set "changedby" (VUser (Ticket.ChangedBy ticket));;
  d_Set "participants" (VParticipants (Ticket.Participants ticket));;
  comments ← call "flattenComments" (flattenComments (Ticket.Comments ticket));
  d_Set "comments" (VList comments);;
  attachments ←
    call "flattenAttachments" (flattenAttachments (Ticket.Attachments ticket));
  d_Set "attachments" (VList attachments);;
  billingitems ←
    call "flattenBillingItems" (flattenBillingItems (Ticket.BillingItems ticket));
  d_Set "billingitems" (VList billingitems);;
  historyitems ←
    call "flattenHistoryItems" (flattenHistoryItems (Ticket.HistoryItems ticket));
  d_Set "historyitems" (VList historyitems);;
  validactions ←
    call "flattenActions" (flattenActions (Ticket.ValidActions ticket));
  d_Set "validactions" (VList validactions);;
  on_resource (SetId (Ticket.ID ticket)).

(** From the body read to the final [return nil]. *)
Definition decode_and_set `{RangeOrder} (w : World) (reader : Reader)
    : M (option string) :=
  r ← io_ReadAll reader;
  match r.2 with
  | Some err => logger_Error err
  | None => mret tt
  end;;
  let bodyBytes := r.1 in
  logger_Debug bodyBytes;;
  let decoded := json_Unmarshal w bodyBytes in
  emit (EvUnmarshal bodyBytes decoded.2);;
  match decoded.2 with
  | Some err => logger_Error err
  | None => mret tt
  end;;
  set_ticket decoded.1;;
  mret None.

(** From the status check on, with the response in hand. *)
Definition handle_response `{RangeOrder} (w : World) (resp : Response)
    : M (option string) :=
  logger_Debug (resp_Status resp);;
  if bool_decide (resp_StatusCode resp ≠ StatusOK) then
    logger_Error ("Response status : " +:+ resp_Status resp);;
    logger_Error ("Response status code : "
                  +:+ string_of_rune (resp_StatusCode resp));;
    mret (Some ("API call failed with status "
                +:+ pretty (resp_StatusCode resp) +:+ ": "
                +:+ resp_Status resp))
  else if bool_decide (Header_Get "Content-Encoding" (resp_Header resp) = "gzip")
  then
    let opened := gzip_NewReader w (resp_Body resp) in
    let gzipReader :=
      match opened with Success gz => Some gz | Failure _ => None end in
    emit (EvGzipNewReader
            match opened with Success _ => None | Failure err => Some err end);;
    match opened with
    | Failure err => logger_Error err
    | Success _ => mret tt
    end;;
    defer (gzipReader_Close gzipReader)
      (decode_and_set w (GzipReader gzipReader))
  else decode_and_set w (BodyReader (resp_Body resp)).

(** The GET request once its five headers are in place. *)
Definition ticket_request (url token : string) : Request :=
  {| req_Method := "GET";
     req_URL := url;
     req_Header :=
       Header_Add "Authorization" ("Bearer " +:+ token)
         (Header_Set "Connection" "keep-alive"
           (Header_Set "Accept-Language" "en-IN,en-GB;q=0.9,en;q=0.8,en-US;q=0.7"
             (Header_Set "Accept-Encoding" "gzip, deflate, br, zstd"
               (Header_Set "Accept" "application/json" ∅)))) |}.

(** From the URL construction on, inside the logger's [defer]. *)
Definition fetch_ticket `{RangeOrder} (w : World) (cred : CloudportalAPIClient)
    : M (option string) :=
  ticketID ← d_Get_string "id";
  let url := BaseURL cred +:+ "/ticket/" +:+ ticketID in
  logger_Debug url;;
  emit (EvNewRequest "GET" url (http_NewRequest w "GET" url));;
  match http_NewRequest w "GET" url with
  | Some err =>
      logger_Error err;;
      mret (Some ("failed to create HTTP request: " +:+ err))
  | None =>
      let scopes := [tenantID cred +:+ "/.default"] in
      match aziclient cred with
      | None => panic nil_dereference
      | Some credential =>
          emit (EvGetToken scopes (azi_GetToken w credential scopes));;
          match azi_GetToken w credential scopes with
          | Failure err =>
              logger_Error err;;
              log_Fatal ("failed to obtain a token: " +:+ err)
          | Success token =>
              logger_Debug ("Token : " +:+ token);;
              let req := ticket_request url token in
              emit (EvDo req (Client_Do w req));;
              match Client_Do w req with
              | Failure err =>
                  logger_Error ("Send request : " +:+ err);;
                  mret (Some err)
              | Success resp =>
                  defer (emit EvBodyClose) (handle_response w resp)
              end
          end
      end
  end.

Definition dataSourceTicketRead `{RangeOrder} (w : World)
    (cred : CloudportalAPIClient) : M (option string) :=
  if isdebug cred then
    r ← call_NewLogger w true;
    match r.2 with
    | Some err => log_Fatal ("Error initializing logger:" +:+ err)
    | None => defer logger_Close (fetch_ticket w cred)
    end
  else fetch_ticket w cred.

(** A run of the read on resource [d] in process state [p]. *)
Definition run {A} (m : M A) (p : Process) (d : ResourceData) : Res A * St :=
  m {| proc := p; rd := d; trace := [] |}.

(** ** Vocabulary of the statements about the read *)

(** The five helper calls a completed read makes, in program order. *)
Definition flatten_calls : list Event :=
  [ EvFlatten "flattenComments"; EvFlatten "flattenAttachments";
    EvFlatten "flattenBillingItems"; EvFlatten "flattenHistoryItems";
    EvFlatten "flattenActions" ].

(** The attributes the read assigns. *)
Definition read_keys : list string :=
  [ "id"; "ticketno"; "title"; "description"; "status"; "substatus";
    "statuschangedat"; "createdat"; "createdby"; "changedby"; "participants";
    "comments"; "attachments"; "billingitems"; "historyitems"; "validactions" ].


(** [d'] is [d] after a completed read of [ticket]: each of the sixteen
    attributes holds the value taken from [ticket], every other attribute
    is as before, and the resource ID is the ticket's. *)
Definition ticket_written `{RangeOrder} (ticket : Ticket.t)
    (d d' : ResourceData) : Prop :=
  let a := rd_attrs d' in
  a !! "id" = Some (VString (Ticket.ID ticket))
  ∧ a !! "ticketno" = Some (VInt (Ticket.TicketNo ticket))
  ∧ a !! "title" = Some (VString (Ticket.Title ticket))
  ∧ a !! "description" = Some (VString (Ticket.Description ticket))
  ∧ a !! "status" = Some (VString (Ticket.Status ticket))
  ∧ a !! "substatus" = Some (VString (Ticket.SubStatus ticket))
  ∧ a !! "statuschangedat" = Some (VString (Ticket.StatusChangedAt ticket))
  ∧ a !! "createdat" = Some (VString (Ticket.CreatedAt ticket))
  ∧ a !! "createdby" = Some (VUser (Ticket.CreatedBy ticket))
  ∧ a !! "changedby" = Some (VUser (Ticket.ChangedBy ticket))
  ∧ a !! "participants" = Some (VParticipants (Ticket.Participants ticket))
  ∧ a !! "comments" = Some (VList (flattenComments (Ticket.Comments ticket)))
  ∧ a !! "attachments"
    = Some (VList (flattenAttachments (Ticket.Attachments ticket)))
  ∧ a !! "billingitems"
    = Some (VList (flattenBillingItems (Ticket.BillingItems ticket)))
  ∧ a !! "historyitems"
    = Some (VList (flattenHistoryItems (Ticket.HistoryItems ticket)))
  ∧ a !! "validactions"
    = Some (VList (flattenActions (Ticket.ValidActions ticket)))
  ∧ (∀ key, key ∉ read_keys → a !! key = rd_attrs d !! key)
  ∧ rd_id d' = Ticket.ID ticket.

(** ** Concrete worlds and inputs used in the examples below *)

(** The state after a failed first initialisation: the file could not be
    opened, [once] is spent and [logInstance] stays nil for good. *)
Definition failed_logger_process : Process :=
  (NewLogger (λ _, Failure "open provider-debug.log: permission denied")
     true initial_process).2.

Definition no_user : User.t := User.mk "" "" "" "" nil_slice.

(** The zero value of [Ticket]. *)
Definition zero_ticket : Ticket.t :=
  Ticket.mk "" 0 "" "" "" "" "" "" no_user no_user
    (ClarityCode.mk "" "" "" nil_slice "")
    nil_slice nil_slice nil_slice nil_slice nil_slice nil_slice
    nil_slice nil_slice "" "" "" "" nil_slice.

(** A decoded ticket with one comment and with values in the fields the
    read does not copy. *)
Definition sample_ticket : Ticket.t :=
  Ticket.mk "42" 7 "Quota" "Raise the quota" "open" "" "" "2024-01-01"
    no_user no_user
    (ClarityCode.mk "CC-1" "core" "4711" nil_slice "T1")
    nil_slice
    (mk_slice [Comment.mk "c1" "" "" no_user "hello" no_user false false ""])
    nil_slice nil_slice nil_slice nil_slice
    (mk_slice ["title"]) (mk_slice ["title"])
    "W/1" "request" "azure-team" "azure" nil_slice.

Definition ok_body : Stream := mkStream "{...}" None.

(** A world in which every collaborator succeeds and the API answers
    [status] with [body]; decoding yields [decoded]. *)
Definition world_answering (status : string) (code : Z)
    (encoding : list string) (decoded : Ticket.t * option string) : World :=
  {| os_OpenFile := λ name, Success (mkFile name false []);
     azidentity_NewClientSecretCredential :=
       λ tenant client secret, Success (mkCredential tenant client secret);
     http_NewRequest := λ _ _, None;
     azi_GetToken := λ _ _, Success "tok";
     Client_Do := λ _,
       Success (mkResponse status code
                  (list_to_map ((λ e, ("Content-Encoding", [e])) <$> encoding))
                  ok_body);
     gzip_NewReader := λ _, Failure "gzip: invalid header";
     json_Unmarshal := λ _, decoded |}.

Definition world_200 : World :=
  world_answering "200 OK" 200 [] (sample_ticket, None).

Definition world_404 : World :=
  world_answering "404 Not Found" 404 [] (zero_ticket, None).

(** The body is not JSON: decoding fails and leaves the ticket zero. *)
Definition world_bad_json : World :=
  world_answering "200 OK" 200 []
    (zero_ticket, Some "invalid character '<' looking for beginning of value").

(** The body announces gzip but does not start with a gzip header. *)
Definition world_bad_gzip : World :=
  world_answering "200 OK" 200 ["gzip"] (sample_ticket, None).

(** No token can be obtained. *)
Definition world_no_token : World :=
  {| os_OpenFile := os_OpenFile world_200;
     azidentity_NewClientSecretCredential :=
       azidentity_NewClientSecretCredential world_200;
     http_NewRequest := http_NewRequest world_200;
     azi_GetToken := λ _ _, Failure "ClientSecretCredential: unauthorized";
     Client_Do := Client_Do world_200;
     gzip_NewReader := gzip_NewReader world_200;
     json_Unmarshal := json_Unmarshal world_200 |}.

(** The log file cannot be opened and no credential can be built. *)
Definition world_readonly : World :=
  {| os_OpenFile := λ _, Failure "open provider-debug.log: permission denied";
     azidentity_NewClientSecretCredential :=
       λ _ _ _, Failure "secret can't be empty string";
     http_NewRequest := http_NewRequest world_200;
     azi_GetToken := azi_GetToken world_200;
     Client_Do := Client_Do world_200;
     gzip_NewReader := gzip_NewReader world_200;
     json_Unmarshal := json_Unmarshal world_200 |}.

Definition sample_client : CloudportalAPIClient :=
  mkClient "https://portal/api" "key" (Some (mkCredential "t" "c" "s")) false "t".

Definition sample_resource : ResourceData :=
  mkResourceData {[ "id" := VString "42" ]} "".

(** Provider configuration with debugging on, resp. off. *)
Definition debug_config : ResourceData :=
  mkResourceData {[ "api_key" := VString "key";
                    "base_url" := VString "https://portal/api";
                    "debug_info" := VBool true;
                    "clientID" := VString "c";
                    "clientSecret" := VString "";
                    "tenantID" := VString "t" ]} "".

Definition quiet_config : ResourceData :=
  mkResourceData {[ "api_key" := VString "key";
                    "base_url" := VString "https://portal/api";
                    "debug_info" := VBool false;
                    "clientID" := VString "c";
                    "clientSecret" := VString "";
                    "tenantID" := VString "t" ]} "".

(** ** schema.go: the nested resources that have a flatten helper *)

Definition required (ty : ValueType) (elem : option SchemaElem) : Schema.t :=
  Schema.mk ty true false elem.
Definition required_list (builder : string) : Schema.t :=
  required TypeList (Some (ElemResource builder)).

Definition userschema : gmap string Schema.t :=
  list_to_map [
    ("email", required TypeString None);
    ("userprincipalname", required TypeString None);
    ("id", required TypeString None);
    ("displayname", required TypeString None);
    ("roles", required TypeList (Some (ElemType TypeString))) ].

Definition commentschema : gmap string Schema.t :=
  list_to_map [
    ("id", required TypeString None);
    ("createdat", required TypeString None);
    ("modifiedat", required TypeString None);
    ("author", required_list "userschema");
    ("content", required TypeString None);
    ("loginuser", required_list "userschema");
    ("iseditable", optional TypeBool None);
    ("iseditmode", optional TypeBool None);
    ("contentcopy", optional TypeString None) ].

Definition attachmentschema : gmap string Schema.t :=
  list_to_map [
    ("url", required TypeString None);
    ("uploaddatetime", required TypeString None);
    ("uploadedby", required_list "userschema");
    ("filename", required TypeString None) ].

Definition invoiceperiodschema : gmap string Schema.t :=
  list_to_map [
    ("invoiceperiod", required TypeString None);
    ("actualcost", required TypeFloat None);
    ("startdate", required TypeString None);
    ("enddate", required TypeString None) ].

Definition billingitemschema : gmap string Schema.t :=
  list_to_map [
    ("id", required TypeString None);
    ("partitionkey", required TypeString None);
    ("subscriptionname", required TypeString None);
    ("invoiceperiods", required_list "invoiceperiodschema") ].

Definition changeschema : gmap string Schema.t :=
  list_to_map [
    ("propertyname", required TypeString None);
    ("oldvalue", optional TypeMap (Some (ElemType TypeString)));
    ("newvalue", optional TypeMap (Some (ElemType TypeString))) ].

Definition historyitemschema : gmap string Schema.t :=
  list_to_map [
    ("date", required TypeString None);
    ("author", required_list "userschema");
    ("changes", optional_list "changeschema") ].

Definition actionschema : gmap string Schema.t :=
  list_to_map [
    ("actionname", required TypeString None);
    ("requiredproperties", required TypeList (Some (ElemType TypeString)));
    ("type", required TypeString None);
    ("minnumofcatalogitems", required TypeInt None) ].

(** The keys of a flattened element; a value that is no mapping has none. *)
Definition entry_keys (v : Value) : gset string :=
  match v with
  | VMap fields => dom fields
  | _ => ∅
  end.

(** ** resource.go: [resourceCustomRead] *)

Definition d_Id : M string := λ s, (Ok (rd_id (rd s)), s).

(** [Get] of the standard library's [http.Client]: build a GET request
    without headers, hand it to [Do]. *)
Definition Client_Get (w : World) (url : string) : M (result Response) :=
  emit (EvNewRequest "GET" url (http_NewRequest w "GET" url));;
  match http_NewRequest w "GET" url with
  | Some err => mret (Failure err)
  | None =>
      let req := {| req_Method := "GET"; req_URL := url; req_Header := ∅ |} in
      emit (EvDo req (Client_Do w req));;
      mret (Client_Do w req)
  end.

Definition resourceCustomRead (w : World) (client : CloudportalAPIClient)
    : M (option string) :=
  resourceID ← d_Id;
  let url := BaseURL client +:+ "/ticket/" +:+ resourceID in
  r ← Client_Get w url;
  match r with
  | Failure err => mret (Some ("error reading resource: " +:+ err))
  | Success resp => defer (emit EvBodyClose) (mret None)
  end.

(** ** Vocabulary of the statements about the logger and the calls *)

(** The logger holds a file that has not been closed. *)
Definition log_open (p : Process) : bool :=
  match logInstance p with
  | Some l =>
      match logger_file l with
      | Some f => negb (file_closed f)
      | None => false
      end
  | None => false
  end.

(** The prefix the logger puts before each message. *)
Definition log_prefix (p : Process) : string :=
  match logInstance p with
  | Some l => logger_prefix l
  | None => ""
  end.

(** What holds in every state the package can reach: only the body run
    by [once] sets [logInstance]. *)
Definition logger_wf (p : Process) : Prop :=
  logInstance p ≠ None → once_done p = true.

(** A property of the process state that no logger call breaks. *)
Definition logger_stable (P : Process → Prop) : Prop :=
  (∀ message p, P p → P (Debug message p))
  ∧ (∀ message p, P p → P (Info message p))
  ∧ (∀ message p, P p → P (Error message p))
  ∧ (∀ p, P p → P (Close p))
  ∧ (∀ open debugEnabled p, P p → P (NewLogger open debugEnabled p).2).

(** A property kept by the four logging calls. *)
Definition logging_stable (P : Process → Prop) : Prop :=
  (∀ message p, P p → P (Debug message p))
  ∧ (∀ message p, P p → P (Info message p))
  ∧ (∀ message p, P p → P (Error message p))
  ∧ (∀ p, P p → P (Close p)).

Definition is_NewRequest (e : Event) : bool :=
  match e with EvNewRequest _ _ _ => true | _ => false end.
Definition is_GetToken (e : Event) : bool :=
  match e with EvGetToken _ _ => true | _ => false end.
Definition is_Do (e : Event) : bool :=
  match e with EvDo _ _ => true | _ => false end.
Definition is_Unmarshal (e : Event) : bool :=
  match e with EvUnmarshal _ _ => true | _ => false end.

(** How many events of one kind a run recorded. *)
Definition count_events (kind : Event → bool) (t : list Event) : nat :=
  length (List.filter kind t).

(** A client configured with debugging on. *)
Definition debug_client : CloudportalAPIClient :=
  mkClient "https://portal/api" "key" (Some (mkCredential "t" "c" "s")) true "t".


(** The connection breaks while the body is read. *)
Definition world_truncated : World :=
  {| os_OpenFile := os_OpenFile world_200;
     azidentity_NewClientSecretCredential :=
       azidentity_NewClientSecretCredential world_200;
     http_NewRequest := http_NewRequest world_200;
     azi_GetToken := azi_GetToken world_200;
     Client_Do := λ _,
       Success (mkResponse "200 OK" 200 ∅
                  (mkStream "{" (Some "unexpected EOF")));
     gzip_NewReader := gzip_NewReader world_200;
     json_Unmarshal := λ _, (zero_ticket, Some "unexpected end of JSON input") |}.
(** ** Properties of the flatten helpers *)

Section RangeAppend.
Context {A : Type} (body : A → Value).

Lemma foldl_append_elems (xs : list A) (acc : slice Value) :
    elems (foldl (λ result x, append result (body x)) acc xs)
    = elems acc ++ (body <$> xs).
Proof.
    revert acc. induction xs as [|x xs IH]; intros acc; simpl.
    - by rewrite app_nil_r.
    - rewrite IH. simpl. by rewrite <- app_assoc.
Qed.

Lemma range_append_elems (xs : list A) :
    elems (range_append body xs) = body <$> xs.
Proof. unfold range_append. by rewrite foldl_append_elems. Qed.

Lemma range_append_len (xs : list A) :
    len (range_append body xs) = length xs.
Proof. unfold len. by rewrite range_append_elems, length_fmap. Qed.


  (** No iteration, no [append]: the declared [result] is returned as is. *)
Lemma range_append_nil : range_append body [] = nil_slice.
Proof. reflexivity. Qed.

Lemma range_append_cons_allocated (x : A) (xs : list A) :
    is_nil (range_append body (x :: xs)) = false.
Proof.
    unfold range_append. simpl.
    assert (∀ acc, is_nil acc = false →
      is_nil (foldl (λ result y, append result (body y)) acc xs) = false)
      as Hacc.
    { induction xs as [|y ys IH]; intros acc Hacc; simpl; [done | by apply IH]. }
    by apply Hacc.
Qed.
End RangeAppend.



Lemma range_map_NoDup `{RangeOrder} {V} (m : gmap string V) :
  NoDup (range_map m).*1.
Proof. rewrite (range_map_perm V m). apply NoDup_fst_map_to_list. Qed.

Lemma range_map_to_map `{RangeOrder} {V} (m : gmap string V) :
  list_to_map (range_map m) = m.
Proof.
  rewrite <- (list_to_map_to_list m) at 2.
  apply list_to_map_proper; [apply range_map_NoDup | apply range_map_perm].
Qed.

Lemma range_map_length `{RangeOrder} {V} (m : gmap string V) :
  length (range_map m) = size m.
Proof. by rewrite (range_map_perm V m), length_map_to_list. Qed.

(** Inserting the visited entries one by one, whatever the visiting order. *)
Lemma foldl_insert_lookup (l : list (string * string))
    (acc : gmap string Value) (k : string) :
  NoDup l.*1 →
  foldl (λ flattened kv, <[kv.1 := VString kv.2]> flattened) acc l !! k
  = match (list_to_map l : gmap string string) !! k with
    | Some v => Some (VString v)
    | None => acc !! k
    end.
Proof.
  revert acc. induction l as [|[k0 v0] l IH]; intros acc Hnd; simpl.
  - by rewrite lookup_empty.
  - inversion Hnd as [|? ? Hk0 Hnd']; subst. rewrite IH by done.
    destruct (decide (k = k0)) as [->|Hne].
    + rewrite lookup_insert_eq.
      rewrite (not_elem_of_list_to_map_1 l k0) by done.
      by rewrite lookup_insert_eq.
    + rewrite !lookup_insert_ne by done. done.
Qed.

Lemma flattenStringMap_fmap `{RangeOrder} (m : gmap string string) :
  flattenStringMap m = VString <$> m.
Proof.
  apply map_eq; intros k. unfold flattenStringMap.
  rewrite foldl_insert_lookup by apply range_map_NoDup.
  rewrite range_map_to_map, lookup_fmap, lookup_empty.
  by destruct (m !! k).
Qed.


(** C4: [flattenInvoicePeriods] yields one element per entry of the period
    map; the element of an entry carries the entry's key as
    ["invoiceperiod"] next to that entry's cost and dates; the singleton
    map for "Jan-2024" yields exactly that one element. *)
Theorem flattenInvoicePeriods_reincludes_key `{RangeOrder} :
  (∀ invoicePeriods : gmap string InvoicePeriod.t,
     len (flattenInvoicePeriods invoicePeriods) = size invoicePeriods
     ∧ elems (flattenInvoicePeriods invoicePeriods)
       ≡ₚ period_entry <$> map_to_list invoicePeriods)
  ∧ (∀ key period, ∃ fields : gmap string Value,
       period_entry (key, period) = VMap fields
       ∧ dom fields = {[ "invoiceperiod"; "actualcost"; "startdate"; "enddate" ]}
       ∧ fields !! "invoiceperiod" = Some (VString key)
       ∧ fields !! "actualcost" = Some (VFloat (InvoicePeriod.ActualCost period))
       ∧ fields !! "startdate" = Some (VString (InvoicePeriod.StartDate period))
       ∧ fields !! "enddate" = Some (VString (InvoicePeriod.EndDate period)))
  ∧ (∀ label : string,
       flattenInvoicePeriods
         {[ "Jan-2024" :=
              InvoicePeriod.mk label 100.5%float "2024-01-01" "2024-01-31" ]}
       = mk_slice [ VMap {[
           "invoiceperiod" := VString "Jan-2024";
           "actualcost" := VFloat 100.5%float;
           "startdate" := VString "2024-01-01";
           "enddate" := VString "2024-01-31" ]} ]).
Proof.
  split; [|split].
  - intros m. unfold flattenInvoicePeriods. split.
    + by rewrite range_append_len, range_map_length.
    + rewrite range_append_elems. by rewrite (range_map_perm _ m).
  - intros key period. eexists. split; [reflexivity|].
    split; [rewrite !dom_insert_L, dom_singleton_L; set_solver|].
    by repeat split.
  - intros label. unfold flattenInvoicePeriods.
    pose proof (range_map_perm _
      ({[ "Jan-2024" := InvoicePeriod.mk label 100.5%float
                          "2024-01-01" "2024-01-31" ]}
        : gmap string InvoicePeriod.t)) as Hperm.
    rewrite map_to_list_singleton in Hperm.
    apply Permutation_singleton_r in Hperm. by rewrite Hperm.
Qed.

Lemma range_map_empty `{RangeOrder} {V} : range_map (∅ : gmap string V) = [].
Proof.
  apply Permutation_nil_r. rewrite (range_map_perm V ∅).
  by rewrite map_to_list_empty.
Qed.





(** ** More on the flatten helpers *)

Lemma range_append_nil_iff {A} (body : A → Value) (xs : list A) :
  is_nil (range_append body xs) = true ↔ xs = [].
Proof.
  destruct xs as [|x xs].
  - done.
  - rewrite range_append_cons_allocated. done.
Qed.

Lemma len_zero_iff {A} (s : slice A) : len s = 0%nat ↔ elems s = [].
Proof. unfold len. by destruct (elems s). Qed.

(** X5: a list helper returns the nil slice exactly when its input is
    empty; as soon as the input has one element the result is an
    allocated slice. *)
Theorem flatten_result_nil_iff_input_empty `{RangeOrder} :
  (∀ users, is_nil (flattenUsers users) = true ↔ len users = 0%nat)
  ∧ (∀ comments, is_nil (flattenComments comments) = true
       ↔ len comments = 0%nat)
  ∧ (∀ attachments, is_nil (flattenAttachments attachments) = true
       ↔ len attachments = 0%nat)
  ∧ (∀ billingItems, is_nil (flattenBillingItems billingItems) = true
       ↔ len billingItems = 0%nat)
  ∧ (∀ historyItems, is_nil (flattenHistoryItems historyItems) = true
       ↔ len historyItems = 0%nat)
  ∧ (∀ changes, is_nil (flattenChanges changes) = true ↔ len changes = 0%nat)
  ∧ (∀ actions, is_nil (flattenActions actions) = true ↔ len actions = 0%nat)
  ∧ (∀ list, is_nil (flattenStringList list) = true ↔ len list = 0%nat)
  ∧ (∀ invoicePeriods,
       is_nil (flattenInvoicePeriods invoicePeriods) = true
       ↔ invoicePeriods = ∅).
Proof.
  repeat match goal with |- _ ∧ _ => split end;
    try (intros xs; rewrite len_zero_iff; apply range_append_nil_iff).
  intros m. unfold flattenInvoicePeriods. rewrite range_append_nil_iff.
  split.
  - intros Hnil. apply map_size_empty_iff.
    by rewrite <- range_map_length, Hnil.
  - intros ->. apply range_map_empty.
Qed.

(** X6: [flattenStringMap] passes a string map through unchanged: the
    result has a value under a key exactly when the input has, and it is
    that string.  The order in which the runtime visits the Go map does
    not show in the result. *)
Theorem flattenStringMap_passes_through (m : gmap string string) :
  (∀ `{RangeOrder} key, flattenStringMap m !! key = VString <$> (m !! key))
  ∧ (∀ order order' : RangeOrder,
       @flattenStringMap order m = @flattenStringMap order' m).
Proof.
  split.
  - intros order key. by rewrite flattenStringMap_fmap, lookup_fmap.
  - intros order order'.
    by rewrite (@flattenStringMap_fmap order), (@flattenStringMap_fmap order').
Qed.

Lemma VMap_inj (m1 m2 : gmap string Value) : VMap m1 = VMap m2 → m1 = m2.
Proof.
  intros Heq.
  exact (f_equal (λ v, match v with VMap m => m | _ => ∅ end) Heq).
Qed.

(** Reads one field off an equation between two map literals. *)
Ltac field_of Hmaps key :=
  let Hfield := fresh "Hfield" in
  pose proof (f_equal (λ fields : gmap string Value, fields !! key) Hmaps)
    as Hfield;
  cbv beta in Hfield;
  repeat first
    [ rewrite lookup_insert_eq in Hfield
    | rewrite lookup_singleton_eq in Hfield
    | rewrite lookup_insert_ne in Hfield by discriminate ];
  injection Hfield as Hfield.

Lemma user_entry_inj (u1 u2 : User.t) : user_entry u1 = user_entry u2 → u1 = u2.
Proof.
  destruct u1, u2. unfold user_entry. cbn [User.Email User.UserPrincipalName
    User.ID User.DisplayName User.Roles]. intros Hmaps%VMap_inj.
  field_of Hmaps "email". field_of Hmaps "userprincipalname".
  field_of Hmaps "id". field_of Hmaps "displayname". field_of Hmaps "roles".
  congruence.
Qed.

Lemma comment_entry_inj (c1 c2 : Comment.t) :
  comment_entry c1 = comment_entry c2 → c1 = c2.
Proof.
  destruct c1, c2. unfold comment_entry.
  cbn [Comment.ID Comment.Createdat Comment.Modifiedat Comment.Author
       Comment.Content Comment.Loginuser Comment.Iseditable
       Comment.Iseditmode Comment.Contentcopy].
  intros Hmaps%VMap_inj.
  field_of Hmaps "id". field_of Hmaps "createdat".
  field_of Hmaps "modifiedat". field_of Hmaps "author".
  field_of Hmaps "content". field_of Hmaps "loginuser".
  field_of Hmaps "iseditable". field_of Hmaps "iseditmode".
  field_of Hmaps "contentcopy".
  congruence.
Qed.

Lemma VString_inj : Inj (=) (=) VString.
Proof. by intros s1 s2 [= ->]. Qed.

Lemma change_entry_inj `{RangeOrder} (c1 c2 : Change.t) :
  change_entry c1 = change_entry c2 → c1 = c2.
Proof.
  destruct c1 as [name1 old1 new1], c2 as [name2 old2 new2].
  unfold change_entry.
  cbn [Change.PropertyName Change.OldValue Change.NewValue].
  rewrite !flattenStringMap_fmap. intros Hmaps%VMap_inj.
  field_of Hmaps "propertyname". field_of Hmaps "oldvalue".
  field_of Hmaps "newvalue".
  apply (map_fmap_inj VString VString_inj) in Hfield0.
  apply (map_fmap_inj VString VString_inj) in Hfield1.
  congruence.
Qed.

Lemma range_append_inj {A} (body : A → Value) (xs ys : list A) :
  (∀ x y, body x = body y → x = y) →
  elems (range_append body xs) = elems (range_append body ys) → xs = ys.
Proof.
  intros Hinj. rewrite !range_append_elems.
  apply list_fmap_eq_inj. exact Hinj.
Qed.

(** X7: flattening users, comments and changes loses nothing: two inputs
    with the same flattened elements have the same elements, field by
    field (only the difference between a nil and an empty input is not
    kept). *)
Theorem flatten_users_comments_changes_lossless `{RangeOrder} :
  (∀ users users',
     elems (flattenUsers users) = elems (flattenUsers users') →
     elems users = elems users')
  ∧ (∀ comments comments',
       elems (flattenComments comments) = elems (flattenComments comments') →
       elems comments = elems comments')
  ∧ (∀ changes changes',
       elems (flattenChanges changes) = elems (flattenChanges changes') →
       elems changes = elems changes').
Proof.
  split; [|split]; intros xs ys; apply range_append_inj.
  - apply user_entry_inj.
  - apply comment_entry_inj.
  - apply change_entry_inj.
Qed.

(** X8: the [InvoicePeriod] label stored inside a period record never
    reaches the output: replacing the labels inside the records by any
    others leaves the flattened periods the same, up to the order of the
    visit.  Only the map key is reported as ["invoiceperiod"]. *)
Theorem flattenInvoicePeriods_ignores_inner_label `{RangeOrder}
    (relabel : InvoicePeriod.t → string)
    (invoicePeriods : gmap string InvoicePeriod.t) :
  elems (flattenInvoicePeriods
           ((λ period,
               InvoicePeriod.mk (relabel period)
                 (InvoicePeriod.ActualCost period)
                 (InvoicePeriod.StartDate period)
                 (InvoicePeriod.EndDate period)) <$> invoicePeriods))
  ≡ₚ elems (flattenInvoicePeriods invoicePeriods).
Proof.
  unfold flattenInvoicePeriods. rewrite !range_append_elems.
  rewrite !range_map_perm, map_to_list_fmap, <- list_fmap_compose.
  erewrite list_fmap_ext; [reflexivity |].
  by intros i [key period] _.
Qed.

(** X9: the keys of a flattened element are exactly the attribute names
    that schema.go declares for its kind, for each of the eight kinds
    that have a flatten helper. *)
Theorem flattened_keys_match_schema `{RangeOrder} :
  (∀ user, entry_keys (user_entry user) = dom userschema)
  ∧ (∀ comment, entry_keys (comment_entry comment) = dom commentschema)
  ∧ (∀ attachment,
       entry_keys (attachment_entry attachment) = dom attachmentschema)
  ∧ (∀ item, entry_keys (billing_entry item) = dom billingitemschema)
  ∧ (∀ key period,
       entry_keys (period_entry (key, period)) = dom invoiceperiodschema)
  ∧ (∀ historyItem,
       entry_keys (history_entry historyItem) = dom historyitemschema)
  ∧ (∀ change, entry_keys (change_entry change) = dom changeschema)
  ∧ (∀ action, entry_keys (action_entry action) = dom actionschema).
Proof.
  repeat match goal with |- _ ∧ _ => split end; intros;
    cbn [entry_keys user_entry comment_entry attachment_entry billing_entry
         period_entry history_entry change_entry action_entry];
    rewrite !dom_insert_L, dom_singleton_L;
    apply (bool_decide_unpack _); vm_compute; exact I.
Qed.

(** ** Properties of the logger *)

(** C9: while [logInstance] is nil, [Debug], [Info], [Error] and [Close]
    return without touching anything: nothing is written, nothing is
    closed, the process state is the one they were called in. *)
Theorem logger_calls_noop_when_uninitialised (p : Process) (message : string) :
  logInstance p = None →
  Debug message p = p
  ∧ Info message p = p
  ∧ Error message p = p
  ∧ Close p = p
  ∧ log_lines (Debug message p) = []
  ∧ log_lines (Info message p) = []
  ∧ log_lines (Error message p) = [].
Proof.
  intros Hnil. unfold Debug, Info, Error, Close, log_with, log_lines.
  by rewrite !Hnil.
Qed.

Lemma logger_calls_noop_when_uninitialised_witness :
  logInstance failed_logger_process = None
  ∧ once_done failed_logger_process = true
  ∧ Debug "url" failed_logger_process = failed_logger_process
  ∧ Close failed_logger_process = failed_logger_process.
Proof.
  split; [reflexivity|]. split; [reflexivity|].
  pose proof (logger_calls_noop_when_uninitialised failed_logger_process "url"
                eq_refl) as (HD & _ & _ & HC & _).
  split; [exact HD | exact HC].
Defined.

(** ** More on the logger *)

Lemma Sprintln_pair (severity message : string) :
  Sprintln [severity; message] = severity +:+ " " +:+ message.
Proof. reflexivity. Qed.

(** What one severity helper does to the log file. *)
Lemma log_with_lines (severity message : string) (p : Process) :
  log_lines (log_with severity message p)
  = log_lines p
    ++ (if log_open p
        then [log_prefix p +:+ severity +:+ " " +:+ message] else []).
Proof.
  unfold log_with, log_lines, log_open, log_prefix, Logger_Println.
  destruct (logInstance p) as [[prefix [[name [|] lines]|]]|] eqn:Hl;
    cbn; rewrite ?Hl; cbn; rewrite ?app_nil_r; reflexivity.
Qed.

Lemma log_with_open (severity message : string) (p : Process) :
  log_open (log_with severity message p) = log_open p.
Proof.
  unfold log_with, log_open, Logger_Println.
  destruct (logInstance p) as [[prefix [[name [|] lines]|]]|] eqn:Hl;
    cbn; rewrite ?Hl; reflexivity.
Qed.


Lemma log_with_once (severity message : string) (p : Process) :
  once_done (log_with severity message p) = once_done p.
Proof. unfold log_with. by destruct (logInstance p) eqn:Hl. Qed.

Lemma Close_lines (p : Process) : log_lines (Close p) = log_lines p.
Proof.
  unfold Close, log_lines.
  destruct (logInstance p) as [[prefix [[name closed lines]|]]|] eqn:Hl;
    cbn; rewrite ?Hl; reflexivity.
Qed.

Lemma Close_open (p : Process) : log_open (Close p) = false.
Proof.
  unfold Close, log_open.
  destruct (logInstance p) as [[prefix [[name closed lines]|]]|] eqn:Hl;
    cbn; rewrite ?Hl; reflexivity.
Qed.

Lemma Close_once (p : Process) : once_done (Close p) = once_done p.
Proof.
  unfold Close.
  by destruct (logInstance p) as [[prefix [[name closed lines]|]]|] eqn:Hl.
Qed.

Lemma Close_prefix (p : Process) : log_prefix (Close p) = log_prefix p.
Proof.
  unfold Close, log_prefix.
  destruct (logInstance p) as [[prefix [[name closed lines]|]]|] eqn:Hl;
    cbn; rewrite ?Hl; reflexivity.
Qed.

Lemma NewLogger_spent (open : string → result File) (debugEnabled : bool)
    (p : Process) :
  once_done p = true → (NewLogger open debugEnabled p).2 = p.
Proof.
  intros Hdone. unfold NewLogger. rewrite Hdone.
  by destruct (logInstance p).
Qed.

Lemma NewLogger_once (open : string → result File) (debugEnabled : bool)
    (p : Process) :
  once_done (NewLogger open debugEnabled p).2 = true.
Proof.
  unfold NewLogger. destruct (once_done p) eqn:Hdone.
  - by destruct (logInstance p).
  - destruct (open "provider-debug.log"); cbn;
      [by destruct debugEnabled | by destruct (logInstance p)].
Qed.

Lemma NewLogger_answer (open : string → result File) (debugEnabled : bool)
    (p : Process) :
  (NewLogger open debugEnabled p).1
  = match logInstance (NewLogger open debugEnabled p).2 with
    | None => (None, Some "logger not initialized")
    | Some l => (Some l, None)
    end.
Proof.
  unfold NewLogger.
  destruct (once_done p);
    [| destruct (open "provider-debug.log") as [file|err];
       [destruct debugEnabled |]];
    cbn; destruct (logInstance p) eqn:Hl; cbn; rewrite ?Hl; reflexivity.
Qed.

(** X1: the log file is opened at most once per process.  Whatever the
    first call of [NewLogger] did, a later call, with any flag and any
    state of the file system, changes nothing and answers what the first
    one answered: a logger that could not be created is never retried. *)
Theorem NewLogger_is_idempotent (open open' : string → result File)
    (debugEnabled debugEnabled' : bool) (p : Process) :
  NewLogger open' debugEnabled' (NewLogger open debugEnabled p).2
  = NewLogger open debugEnabled p
  ∧ once_done (NewLogger open debugEnabled p).2 = true.
Proof.
  split; [| apply NewLogger_once].
  pose proof (NewLogger_once open debugEnabled p) as Hdone.
  pose proof (NewLogger_spent open' debugEnabled' _ Hdone) as Hsame.
  pose proof (NewLogger_answer open' debugEnabled'
                (NewLogger open debugEnabled p).2) as Hanswer.
  rewrite Hsame in Hanswer. rewrite <- NewLogger_answer in Hanswer.
  destruct (NewLogger open' debugEnabled' (NewLogger open debugEnabled p).2)
    as [answer' q'].
  destruct (NewLogger open debugEnabled p) as [answer q].
  cbn in *. by subst.
Qed.




Lemma log_with_some (severity message : string) (p : Process) :
  logInstance (log_with severity message p) ≠ None → logInstance p ≠ None.
Proof.
  unfold log_with. destruct (logInstance p) eqn:Hl; [done |].
  by rewrite Hl.
Qed.

Lemma Close_some (p : Process) :
  logInstance (Close p) ≠ None → logInstance p ≠ None.
Proof.
  unfold Close. destruct (logInstance p) eqn:Hl; [done |].
  by rewrite Hl.
Qed.

Lemma logger_wf_stable : logger_stable logger_wf.
Proof.
  unfold logger_stable, logger_wf, Debug, Info, Error.
  repeat match goal with |- _ ∧ _ => split end.
  - intros message p Hwf Hsome. rewrite log_with_once.
    eapply Hwf, log_with_some, Hsome.
  - intros message p Hwf Hsome. rewrite log_with_once.
    eapply Hwf, log_with_some, Hsome.
  - intros message p Hwf Hsome. rewrite log_with_once.
    eapply Hwf, log_with_some, Hsome.
  - intros p Hwf Hsome. rewrite Close_once. apply Hwf, Close_some, Hsome.
  - intros open debugEnabled p Hwf Hsome. apply NewLogger_once.
Qed.

(** X4: the log is append-only.  In every reachable state (only [once]
    sets [logInstance]) each logger call leaves the lines written so far
    in place, as a prefix of the lines afterwards, and keeps the state
    reachable; [Close] adds nothing and leaves the file closed. *)
Theorem log_is_append_only (open : string → result File)
    (debugEnabled : bool) (message : string) (p : Process) :
  logger_wf p →
  log_lines p `prefix_of` log_lines (Debug message p)
  ∧ log_lines p `prefix_of` log_lines (Info message p)
  ∧ log_lines p `prefix_of` log_lines (Error message p)
  ∧ log_lines (Close p) = log_lines p
  ∧ log_open (Close p) = false
  ∧ log_lines p `prefix_of` log_lines (NewLogger open debugEnabled p).2
  ∧ logger_wf (Debug message p) ∧ logger_wf (Info message p)
  ∧ logger_wf (Error message p) ∧ logger_wf (Close p)
  ∧ logger_wf (NewLogger open debugEnabled p).2.
Proof.
  intros Hwf.
  destruct logger_wf_stable as (HD & HI & HE & HC & HN).
  repeat match goal with |- _ ∧ _ => split end;
    try (unfold Debug, Info, Error; rewrite log_with_lines;
         by apply prefix_app_r);
    auto using Close_lines, Close_open.
  destruct (once_done p) eqn:Hdone.
  - by rewrite NewLogger_spent.
  - assert (logInstance p = None) as Hnil.
    { destruct (logInstance p) eqn:Hl; [|done].
      rewrite Hwf in Hdone; [done | by rewrite Hl]. }
    unfold log_lines at 1. rewrite Hnil. apply prefix_nil.
Qed.

Lemma log_is_append_only_witness :
  log_lines (NewLogger (os_OpenFile world_200) true initial_process).2
  `prefix_of`
  log_lines (Debug "url"
               (NewLogger (os_OpenFile world_200) true initial_process).2).
Proof.
  assert (logger_wf
            (NewLogger (os_OpenFile world_200) true initial_process).2)
    as Hwf.
  { intros _. reflexivity. }
  destruct (log_is_append_only (os_OpenFile world_200) true "url" _ Hwf)
    as (Hdebug & _).
  exact Hdebug.
Defined.

(** ** Properties of [dataSourceTicketRead] *)

(** Unfolds the run of provider code down to the collaborators' answers;
    the logger, the formatting helpers and the flatten helpers stay
    folded. *)
Ltac run_simpl :=
  cbv beta iota zeta delta
    [run dataSourceTicketRead fetch_ticket handle_response decode_and_set
     providerConfigure io_ReadAll gzipReader_Close defer call_NewLogger
     logger_Debug logger_Info logger_Error logger_Close on_process emit
     d_Get_string d_Get_bool log_Fatal panic mbind M_bind mret M_ret
     fst snd proc rd trace app orb].

Lemma Set_attr_lookup_eq (key : string) (v : Value) (d : ResourceData) :
  rd_attrs (Set_attr key v d) !! key = Some v.
Proof. apply lookup_insert_eq. Qed.

Lemma Set_attr_lookup_ne (key key' : string) (v : Value) (d : ResourceData) :
  key ≠ key' → rd_attrs (Set_attr key v d) !! key' = rd_attrs d !! key'.
Proof. apply lookup_insert_ne. Qed.

Lemma SetId_attrs (id : string) (d : ResourceData) :
  rd_attrs (SetId id d) = rd_attrs d.
Proof. reflexivity. Qed.

Lemma SetId_id (id : string) (d : ResourceData) : rd_id (SetId id d) = id.
Proof. reflexivity. Qed.

(** Looks an attribute up through the assignments made after it. *)
Ltac lookup_assigned :=
  rewrite ?SetId_attrs;
  repeat (rewrite Set_attr_lookup_ne by discriminate);
  apply Set_attr_lookup_eq.

Lemma set_ticket_run `{RangeOrder} (ticket : Ticket.t) (s : St) :
  ∃ d', set_ticket ticket s
        = (Ok tt, {| proc := proc s; rd := d';
                     trace := trace s ++ flatten_calls |})
        ∧ ticket_written ticket (rd s) d'.
Proof.
  destruct s as [p d t]. eexists. split.
  - cbv beta iota zeta delta
      [set_ticket call d_Set on_resource emit mbind M_bind mret M_ret
       flatten_calls fst snd proc rd trace].
    rewrite <- !app_assoc. reflexivity.
  - unfold ticket_written. cbv zeta. cbn [rd].
    repeat match goal with |- _ ∧ _ => split end.
    1-16: lookup_assigned.
    + intros key Hkey. unfold read_keys in Hkey. rewrite SetId_attrs.
      repeat (rewrite Set_attr_lookup_ne;
              [|intros <-; apply Hkey; set_solver]).
      reflexivity.
    + apply SetId_id.
Qed.

(** One step of the case analysis over a run of the read. *)
Ltac read_step w cred :=
  first
  [ progress run_simpl
  | match goal with
    | |- context [isdebug cred] => destruct (isdebug cred) eqn:?
    | |- context [NewLogger (os_OpenFile w) true ?p] =>
        destruct (NewLogger (os_OpenFile w) true p) as [[? [?|]] ?] eqn:?
    | |- context [http_NewRequest w ?m ?u] =>
        destruct (http_NewRequest w m u) eqn:?
    | |- context [aziclient cred] => destruct (aziclient cred) eqn:?
    | |- context [azi_GetToken w ?c ?s] => destruct (azi_GetToken w c s) eqn:?
    | |- context [Client_Do w ?r] => destruct (Client_Do w r) eqn:?
    | |- context [bool_decide _] => case_bool_decide
    | |- context [gzip_NewReader w ?b] => destruct (gzip_NewReader w b) eqn:?
    | |- context [stream_err ?b] => destruct (stream_err b) eqn:?
    | |- context [json_Unmarshal w ?x] =>
        destruct (json_Unmarshal w x) as [? [?|]] eqn:?
    | |- context [set_ticket ?t ?s] =>
        destruct (set_ticket_run t s) as (? & -> & ?)
    end ].

Ltac read_cases w cred := repeat read_step w cred.


(** Two answers recorded for the same call are the same answer. *)
Ltac merge_answers :=
  repeat match goal with
  | H1 : ?call = _, H2 : ?call = _ |- _ => rewrite H1 in H2; simplify_eq
  end.

(** Splits a membership in an explicit list of events into its cases. *)
Ltac event_cases H :=
  repeat first
    [ apply elem_of_nil in H; destruct H
    | apply elem_of_cons in H; destruct H as [H|H];
      [ first [ discriminate H | simplify_eq ] | ] ].

(** Finds an event in an explicit list of events. *)
Ltac event_found :=
  repeat first [ apply list_elem_of_here | apply list_elem_of_further ].

(** C7: when the API answers with a status other than 200, the read
    returns the error built from the status code and the status text,
    and the resource is left as it was (no attribute set, no helper
    called). *)
Theorem non_200_status_is_terminal_error `{RangeOrder} (w : World)
    (cred : CloudportalAPIClient) (p : Process) (d : ResourceData)
    (req : Request) (resp : Response) :
  EvDo req (Success resp) ∈ trace (run (dataSourceTicketRead w cred) p d).2 →
  resp_StatusCode resp ≠ 200 →
  (run (dataSourceTicketRead w cred) p d).1
  = Ok (Some ("API call failed with status "
              +:+ pretty (resp_StatusCode resp) +:+ ": " +:+ resp_Status resp))
  ∧ rd (run (dataSourceTicketRead w cred) p d).2 = d
  ∧ ∀ helper, EvFlatten helper ∉ trace (run (dataSourceTicketRead w cred) p d).2.
Proof.
  read_cases w cred; unfold flatten_calls; cbn [app];
    intros Hin Hcode; event_cases Hin;
    try (exfalso; unfold StatusOK in *; tauto);
    (split; [reflexivity | split; [reflexivity |]]);
    intros helper Hhelper; event_cases Hhelper.
Qed.

Lemma non_200_status_witness :
  (run (dataSourceTicketRead world_404 sample_client)
     initial_process sample_resource).1
  = Ok (Some "API call failed with status 404: 404 Not Found")
  ∧ rd (run (dataSourceTicketRead world_404 sample_client)
          initial_process sample_resource).2
    = sample_resource.
Proof.
  assert (EvDo (ticket_request "https://portal/api/ticket/42" "tok")
            (Success (mkResponse "404 Not Found" 404 ∅ ok_body))
          ∈ trace (run (dataSourceTicketRead world_404 sample_client)
                     initial_process sample_resource).2) as Hin.
  { apply list_elem_of_lookup. exists 2%nat. vm_compute. reflexivity. }
  destruct (non_200_status_is_terminal_error world_404 sample_client
              initial_process sample_resource _ _ Hin)
    as (Hres & Hrd & _).
  { cbn. discriminate. }
  split; [| exact Hrd].
  etrans; [exact Hres |]. vm_compute. reflexivity.
Defined.

(** C1 fails on the code for a decode failure: whenever
    [json.Unmarshal] reports an error, the read still calls the five
    flatten helpers, writes the attributes of whatever the decoder left in
    the ticket, and returns nil. *)
Theorem decode_error_is_not_surfaced `{RangeOrder} (w : World)
    (cred : CloudportalAPIClient) (p : Process) (d : ResourceData)
    (data err : string) :
  EvUnmarshal data (Some err)
    ∈ trace (run (dataSourceTicketRead w cred) p d).2 →
  (run (dataSourceTicketRead w cred) p d).1 = Ok None
  ∧ (∀ e, e ∈ flatten_calls →
       e ∈ trace (run (dataSourceTicketRead w cred) p d).2)
  ∧ ∃ ticket,
      json_Unmarshal w data = (ticket, Some err)
      ∧ ticket_written ticket d (rd (run (dataSourceTicketRead w cred) p d).2).
Proof.
  read_cases w cred; unfold flatten_calls; cbn [app];
    intros Hin; event_cases Hin; merge_answers;
    (split; [reflexivity | split;
       [ intros e He; event_cases He; event_found
       | eexists; split; [reflexivity | assumption] ] ]).
Qed.

Lemma decode_error_is_not_surfaced_witness :
  (run (dataSourceTicketRead world_bad_json sample_client)
     initial_process sample_resource).1 = Ok None
  ∧ EvFlatten "flattenComments"
    ∈ trace (run (dataSourceTicketRead world_bad_json sample_client)
               initial_process sample_resource).2
  ∧ rd_attrs (rd (run (dataSourceTicketRead world_bad_json sample_client)
                    initial_process sample_resource).2) !! "title"
    = Some (VString "").
Proof.
  assert (EvUnmarshal "{...}"
            (Some "invalid character '<' looking for beginning of value")
          ∈ trace (run (dataSourceTicketRead world_bad_json sample_client)
                     initial_process sample_resource).2) as Hin.
  { apply list_elem_of_lookup. exists 4%nat. vm_compute. reflexivity. }
  destruct (decode_error_is_not_surfaced world_bad_json sample_client
              initial_process sample_resource _ _ Hin)
    as (Hres & Hcalls & ticket & Hdecoded & Hwritten).
  split; [exact Hres |]. split.
  - apply Hcalls. unfold flatten_calls. apply list_elem_of_here.
  - destruct Hwritten as (_ & _ & Htitle & _).
    rewrite Htitle. injection Hdecoded as <-. reflexivity.
Defined.

(** The two other failures the read does not turn into a returned error:
    a token failure ends the process, and a gzip failure leaves a nil
    reader whose first use panics.  Neither calls a helper or writes an
    attribute. *)
Lemma token_and_gzip_failures_do_not_return `{RangeOrder} (w : World)
    (cred : CloudportalAPIClient) (p : Process) (d : ResourceData) :
  (∀ scopes err,
     EvGetToken scopes (Failure err)
       ∈ trace (run (dataSourceTicketRead w cred) p d).2 →
     (run (dataSourceTicketRead w cred) p d).1
     = Exit ("failed to obtain a token: " +:+ err))
  ∧ (∀ err,
       EvGzipNewReader (Some err)
         ∈ trace (run (dataSourceTicketRead w cred) p d).2 →
       (run (dataSourceTicketRead w cred) p d).1 = Panic nil_dereference).
Proof.
  read_cases w cred; unfold flatten_calls; cbn [app];
    (split; [intros scopes err' Hin | intros err' Hin]);
    event_cases Hin; reflexivity.
Qed.







(** ** More on [dataSourceTicketRead] *)

(** Peels the logging calls off the final process state. *)
Ltac through_logging HD HI HE HC :=
  repeat first [ apply HC | apply HD | apply HE | apply HI ].

(** Whatever the logging calls keep, a read keeps: the read touches the
    process state through the logger only, and initialises it only when
    [isdebug] is set. *)
Lemma read_keeps_logger_property `{RangeOrder} (P : Process → Prop)
    (w : World) (cred : CloudportalAPIClient) (p : Process)
    (d : ResourceData) :
  logging_stable P →
  P (if isdebug cred then (NewLogger (os_OpenFile w) true p).2 else p) →
  P (proc (run (dataSourceTicketRead w cred) p d).2).
Proof.
  intros (HD & HI & HE & HC). revert P HD HI HE HC.
  read_cases w cred; intros P HD HI HE HC Hstart;
    through_logging HD HI HE HC; exact Hstart.
Qed.

(** Recovers what [NewLogger] left from the answer recorded for it. *)
Ltac after_NewLogger tac :=
  match goal with
  | Hanswer : NewLogger ?open ?flag ?q = _ |- _ =>
      let Hfact := fresh "Hfact" in
      pose proof (tac open flag q) as Hfact;
      rewrite Hanswer in Hfact; cbn [fst snd] in Hfact
  end.

(** A read with [isdebug] set ends with the file closed and [once]
    spent, unless the process exits. *)
Lemma debug_read_spends_logger `{RangeOrder} (w : World)
    (cred : CloudportalAPIClient) (p : Process) (d : ResourceData) :
  isdebug cred = true →
  (∀ msg, (run (dataSourceTicketRead w cred) p d).1 ≠ Exit msg) →
  log_open (proc (run (dataSourceTicketRead w cred) p d).2) = false
  ∧ once_done (proc (run (dataSourceTicketRead w cred) p d).2) = true.
Proof.
  read_cases w cred; intros Hdebug Hreturns; try discriminate Hdebug;
    try (exfalso; by eapply Hreturns);
    (split; [apply Close_open |]);
    rewrite Close_once; unfold Debug, Info, Error; rewrite ?log_with_once;
    after_NewLogger NewLogger_once; exact Hfact.
Qed.

(** X10: a read with [isdebug] set leaves the log file closed.  Unless
    the process exits, the deferred [logger.Close] runs on every way out
    of the read, a panic included; whatever is logged after the read is
    dropped, and a later [NewLogger] does not reopen the file. *)
Theorem debug_read_closes_log `{RangeOrder} (w : World)
    (cred : CloudportalAPIClient) (p : Process) (d : ResourceData)
    (message : string) (open : string → result File) (debugEnabled : bool) :
  isdebug cred = true →
  (∀ msg, (run (dataSourceTicketRead w cred) p d).1 ≠ Exit msg) →
  log_open (proc (run (dataSourceTicketRead w cred) p d).2) = false
  ∧ log_lines (Debug message (proc (run (dataSourceTicketRead w cred) p d).2))
    = log_lines (proc (run (dataSourceTicketRead w cred) p d).2)
  ∧ log_lines (Info message (proc (run (dataSourceTicketRead w cred) p d).2))
    = log_lines (proc (run (dataSourceTicketRead w cred) p d).2)
  ∧ log_lines (Error message (proc (run (dataSourceTicketRead w cred) p d).2))
    = log_lines (proc (run (dataSourceTicketRead w cred) p d).2)
  ∧ (NewLogger open debugEnabled
       (proc (run (dataSourceTicketRead w cred) p d).2)).2
    = proc (run (dataSourceTicketRead w cred) p d).2.
Proof.
  intros Hdebug Hreturns.
  destruct (debug_read_spends_logger w cred p d Hdebug Hreturns)
    as [Hclosed Hdone].
  split; [exact Hclosed |].
  unfold Debug, Info, Error.
  rewrite !log_with_lines, Hclosed, app_nil_r.
  repeat split. by apply NewLogger_spent.
Qed.

Lemma debug_read_closes_log_witness :
  log_open (proc (run (dataSourceTicketRead world_404 debug_client)
                    initial_process sample_resource).2) = false.
Proof.
  apply (debug_read_closes_log world_404 debug_client initial_process
           sample_resource "late" (os_OpenFile world_200) true eq_refl).
  intros msg Hexit. vm_compute in Hexit. discriminate Hexit.
Defined.

Lemma dead_logger_stable (lines : list string) :
  logging_stable
    (λ q, once_done q = true ∧ log_open q = false ∧ log_lines q = lines).
Proof.
  unfold logging_stable, Debug, Info, Error.
  repeat match goal with |- _ ∧ _ => split end;
    intros; destruct_and?;
    rewrite ?log_with_once, ?log_with_open, ?log_with_lines,
            ?Close_once, ?Close_open, ?Close_lines;
    repeat match goal with Hopen : log_open _ = false |- _ =>
             rewrite Hopen; clear Hopen end;
    rewrite ?app_nil_r; done.
Qed.

(** With [once] spent and no open file, a read writes nothing to the
    log and cannot revive the logger. *)
Lemma read_on_dead_logger `{RangeOrder} (w : World)
    (cred : CloudportalAPIClient) (p : Process) (d : ResourceData) :
  once_done p = true → log_open p = false →
  once_done (proc (run (dataSourceTicketRead w cred) p d).2) = true
  ∧ log_open (proc (run (dataSourceTicketRead w cred) p d).2) = false
  ∧ log_lines (proc (run (dataSourceTicketRead w cred) p d).2) = log_lines p.
Proof.
  intros Hdone Hclosed.
  apply (read_keeps_logger_property
           (λ q, once_done q = true ∧ log_open q = false
                 ∧ log_lines q = log_lines p)).
  - apply dead_logger_stable.
  - rewrite NewLogger_spent by done. by destruct (isdebug cred).
Qed.

(** X11: only the first debug read of a process is logged.  After a
    read with [isdebug] set has returned or panicked, a later read, by any
    client and in any world, adds no line to the log file: the logger
    closed its file and is never initialised again. *)
Theorem only_first_debug_read_is_logged `{RangeOrder} (w w' : World)
    (cred cred' : CloudportalAPIClient) (p : Process) (d d' : ResourceData) :
  isdebug cred = true →
  (∀ msg, (run (dataSourceTicketRead w cred) p d).1 ≠ Exit msg) →
  log_lines
    (proc (run (dataSourceTicketRead w' cred')
             (proc (run (dataSourceTicketRead w cred) p d).2) d').2)
  = log_lines (proc (run (dataSourceTicketRead w cred) p d).2).
Proof.
  intros Hdebug Hreturns.
  destruct (debug_read_spends_logger w cred p d Hdebug Hreturns)
    as [Hclosed Hdone].
  by apply read_on_dead_logger.
Qed.

Lemma only_first_debug_read_is_logged_witness :
  log_lines
    (proc (run (dataSourceTicketRead world_200 debug_client)
             (proc (run (dataSourceTicketRead world_404 debug_client)
                      initial_process sample_resource).2)
             sample_resource).2)
  = log_lines (proc (run (dataSourceTicketRead world_404 debug_client)
                       initial_process sample_resource).2).
Proof.
  apply (only_first_debug_read_is_logged world_404 world_200 debug_client
           debug_client initial_process sample_resource sample_resource
           eq_refl).
  intros msg Hexit. vm_compute in Hexit. discriminate Hexit.
Defined.







(** Counts the events of each kind in an explicit trace. *)
Ltac count_trace :=
  cbv [count_events List.filter is_NewRequest is_GetToken is_Do is_Unmarshal
       length].

(** X13: a read never retries.  In one run the request is built at most
    once, a token is asked for at most once, the request is sent at most
    once and the body is decoded at most once. *)
Theorem read_never_retries `{RangeOrder} (w : World)
    (cred : CloudportalAPIClient) (p : Process) (d : ResourceData) :
  (count_events is_NewRequest
     (trace (run (dataSourceTicketRead w cred) p d).2) ≤ 1)%nat
  ∧ (count_events is_GetToken
       (trace (run (dataSourceTicketRead w cred) p d).2) ≤ 1)%nat
  ∧ (count_events is_Do
       (trace (run (dataSourceTicketRead w cred) p d).2) ≤ 1)%nat
  ∧ (count_events is_Unmarshal
       (trace (run (dataSourceTicketRead w cred) p d).2) ≤ 1)%nat.
Proof.
  read_cases w cred; unfold flatten_calls; cbn [app]; count_trace;
    repeat split; lia.
Qed.

Lemma ticket_request_headers (url token : string) :
  req_Method (ticket_request url token) = "GET"
  ∧ req_URL (ticket_request url token) = url
  ∧ dom (req_Header (ticket_request url token))
    = {[ "Accept"; "Accept-Encoding"; "Accept-Language"; "Connection";
         "Authorization" ]}
  ∧ req_Header (ticket_request url token) !! "Authorization"
    = Some ["Bearer " +:+ token]
  ∧ req_Header (ticket_request url token) !! "Accept"
    = Some ["application/json"]
  ∧ req_Header (ticket_request url token) !! "Accept-Encoding"
    = Some ["gzip, deflate, br, zstd"].
Proof.
  unfold ticket_request, Header_Add, Header_Set. cbn [req_Method req_URL req_Header].
  split; [reflexivity |]. split; [reflexivity |]. split.
  { rewrite !dom_insert_L, dom_empty_L.
    apply (bool_decide_unpack _). vm_compute. exact I. }
  split.
  { rewrite lookup_insert_eq.
    repeat (rewrite lookup_insert_ne by discriminate).
    rewrite lookup_empty. reflexivity. }
  split.
  { repeat (rewrite lookup_insert_ne by discriminate).
    apply lookup_insert_eq. }
  repeat (rewrite lookup_insert_ne by discriminate).
  apply lookup_insert_eq.
Qed.

(** X14: the request a read sends.  Whatever is handed to the HTTP
    client is a GET of [BaseURL/ticket/id], where [id] is the resource's
    ["id"] attribute; it carries exactly five headers, and its
    [Authorization] header is ["Bearer "] followed by the token that the
    credential returned for the single scope [tenantID/.default]. *)
Theorem read_sends_authorized_get `{RangeOrder} (w : World)
    (cred : CloudportalAPIClient) (p : Process) (d : ResourceData)
    (req : Request) (answer : result Response) :
  EvDo req answer ∈ trace (run (dataSourceTicketRead w cred) p d).2 →
  req_Method req = "GET"
  ∧ req_URL req = BaseURL cred +:+ "/ticket/" +:+ Get_string d "id"
  ∧ dom (req_Header req)
    = {[ "Accept"; "Accept-Encoding"; "Accept-Language"; "Connection";
         "Authorization" ]}
  ∧ req_Header req !! "Accept" = Some ["application/json"]
  ∧ ∃ token,
      EvGetToken [tenantID cred +:+ "/.default"] (Success token)
        ∈ trace (run (dataSourceTicketRead w cred) p d).2
      ∧ req_Header req !! "Authorization" = Some ["Bearer " +:+ token].
Proof.
  read_cases w cred; unfold flatten_calls; cbn [app];
    intros Hin; event_cases Hin;
    match goal with
    | |- context [ticket_request ?url ?token] =>
        destruct (ticket_request_headers url token)
          as (Hmethod & Hurl & Hdom & Hauth & Haccept & _);
        (split; [exact Hmethod |]); (split; [exact Hurl |]);
        (split; [exact Hdom |]); (split; [exact Haccept |]);
        exists token; (split; [event_found | exact Hauth])
    end.
Qed.

Lemma read_sends_authorized_get_witness :
  req_URL (ticket_request "https://portal/api/ticket/42" "tok")
  = "https://portal/api/ticket/42"
  ∧ req_Header (ticket_request "https://portal/api/ticket/42" "tok")
      !! "Accept" = Some ["application/json"].
Proof.
  assert (EvDo (ticket_request "https://portal/api/ticket/42" "tok")
            (Client_Do world_404
               (ticket_request "https://portal/api/ticket/42" "tok"))
          ∈ trace (run (dataSourceTicketRead world_404 sample_client)
                     initial_process sample_resource).2) as Hin.
  { apply list_elem_of_lookup. exists 2%nat. vm_compute. reflexivity. }
  destruct (read_sends_authorized_get world_404 sample_client initial_process
              sample_resource _ _ Hin) as (_ & Hurl & _ & Haccept & _).
  split; [| exact Haccept].
  etrans; [exact Hurl |]. vm_compute. reflexivity.
Defined.

(** X15: the errors a read can return.  A returned error is the
    request-construction error behind a fixed prefix, or the transport
    error as it came, or the status message of a response whose status is
    not 200; nothing else is ever returned as an error. *)
Theorem read_returns_three_kinds_of_error `{RangeOrder} (w : World)
    (cred : CloudportalAPIClient) (p : Process) (d : ResourceData)
    (e : string) :
  (run (dataSourceTicketRead w cred) p d).1 = Ok (Some e) →
  (∃ url err,
     EvNewRequest "GET" url (Some err)
       ∈ trace (run (dataSourceTicketRead w cred) p d).2
     ∧ e = "failed to create HTTP request: " +:+ err)
  ∨ (∃ req,
       EvDo req (Failure e) ∈ trace (run (dataSourceTicketRead w cred) p d).2)
  ∨ (∃ req resp,
       EvDo req (Success resp)
         ∈ trace (run (dataSourceTicketRead w cred) p d).2
       ∧ resp_StatusCode resp ≠ 200
       ∧ e = "API call failed with status "
             +:+ pretty (resp_StatusCode resp) +:+ ": " +:+ resp_Status resp).
Proof.
  read_cases w cred; unfold flatten_calls; cbn [app];
    intros Hres; try discriminate Hres; injection Hres as <-;
    first
      [ left; do 2 eexists; split; [solve [event_found] | reflexivity]
      | right; left; eexists; solve [event_found]
      | right; right; do 2 eexists;
        split; [solve [event_found] | split; [assumption | reflexivity]] ].
Qed.

Lemma read_returns_three_kinds_of_error_witness :
  ∃ req resp,
    EvDo req (Success resp)
      ∈ trace (run (dataSourceTicketRead world_404 sample_client)
                 initial_process sample_resource).2
    ∧ resp_StatusCode resp = 404.
Proof.
  assert ((run (dataSourceTicketRead world_404 sample_client)
             initial_process sample_resource).1
          = Ok (Some "API call failed with status 404: 404 Not Found"))
    as Hres.
  { vm_compute. reflexivity. }
  destruct (read_returns_three_kinds_of_error world_404 sample_client
              initial_process sample_resource _ Hres)
    as [(url & err & Hin & _) | [(req & Hin) | (req & resp & Hin & _ & _)]].
  - exfalso. vm_compute in Hin. event_cases Hin.
  - exfalso. vm_compute in Hin. event_cases Hin.
  - exists req, resp. split; [exact Hin |].
    vm_compute in Hin. event_cases Hin. reflexivity.
Defined.

(** X16: the response body is closed exactly when a response arrived:
    on every way out of the read after a response, a panic included, and
    never without one. *)
Theorem body_closed_iff_response `{RangeOrder} (w : World)
    (cred : CloudportalAPIClient) (p : Process) (d : ResourceData) :
  EvBodyClose ∈ trace (run (dataSourceTicketRead w cred) p d).2
  ↔ ∃ req resp,
      EvDo req (Success resp)
        ∈ trace (run (dataSourceTicketRead w cred) p d).2.
Proof.
  read_cases w cred; unfold flatten_calls; cbn [app];
    (split; [ intros Hin; event_cases Hin; do 2 eexists; event_found
            | intros (req & resp & Hin); event_cases Hin; event_found ]).
Qed.



(** X18: an error while reading the body is only logged.  The bytes
    read before the error are handed to the decoder, the five flatten
    helpers are called and the read returns nil. *)
Theorem body_read_error_is_not_surfaced `{RangeOrder} (w : World)
    (cred : CloudportalAPIClient) (p : Process) (d : ResourceData)
    (err : string) :
  EvReadAll (Some err) ∈ trace (run (dataSourceTicketRead w cred) p d).2 →
  (run (dataSourceTicketRead w cred) p d).1 = Ok None
  ∧ count_events is_Unmarshal
      (trace (run (dataSourceTicketRead w cred) p d).2) = 1%nat
  ∧ ∀ e, e ∈ flatten_calls →
      e ∈ trace (run (dataSourceTicketRead w cred) p d).2.
Proof.
  read_cases w cred; unfold flatten_calls; cbn [app];
    intros Hin; event_cases Hin;
    (split; [reflexivity | split;
       [ count_trace; reflexivity
       | intros e He; event_cases He; event_found ] ]).
Qed.

Lemma body_read_error_is_not_surfaced_witness :
  (run (dataSourceTicketRead world_truncated sample_client)
     initial_process sample_resource).1 = Ok None.
Proof.
  assert (EvReadAll (Some "unexpected EOF")
          ∈ trace (run (dataSourceTicketRead world_truncated sample_client)
                     initial_process sample_resource).2) as Hin.
  { apply list_elem_of_lookup. exists 3%nat. vm_compute. reflexivity. }
  apply (body_read_error_is_not_surfaced world_truncated sample_client
           initial_process sample_resource _ Hin).
Defined.

(** X21: the status code in the log is not the number.  For every
    status code from 100 to 599 the conversion [string(code)] used for the
    line "Response status code" yields the UTF-8 encoding of the code
    point [code], one or two bytes long, and never the three decimal
    digits that the returned error message shows. *)
Theorem logged_status_code_is_not_decimal (code : Z) :
  100 ≤ code < 600 →
  (String.length (string_of_rune code) ≤ 2)%nat
  ∧ String.length (pretty code) = 3%nat
  ∧ string_of_rune code ≠ pretty code.
Proof.
  intros Hrange.
  assert (code ∈ seqZ 100 500) as Hin by (apply elem_of_seqZ; lia).
  clear Hrange. revert code Hin. apply Forall_forall.
  apply (bool_decide_unpack _). vm_compute. exact I.
Qed.

Lemma logged_status_code_is_not_decimal_witness :
  string_of_rune 404 ≠ pretty 404.
Proof.
  apply (logged_status_code_is_not_decimal 404). lia.
Defined.

(** ** Properties of [providerConfigure] *)

(** One step of the case analysis over a run of the configuration. *)
Ltac configure_step w d :=
  first
  [ progress run_simpl
  | match goal with
    | |- context [Get_bool d "debug_info"] =>
        destruct (Get_bool d "debug_info") eqn:?
    | |- context [NewLogger (os_OpenFile w) true ?p] =>
        destruct (NewLogger (os_OpenFile w) true p) as [[? [?|]] ?] eqn:?
    | |- context [bool_decide _] => case_bool_decide
    | Hanswer : azidentity_NewClientSecretCredential w ?t ?c ?s = _
      |- context [azidentity_NewClientSecretCredential w ?t ?c ?s] =>
        rewrite Hanswer
    | |- context [azidentity_NewClientSecretCredential w ?t ?c ?s] =>
        destruct (azidentity_NewClientSecretCredential w t c s) eqn:?
    end ].

Ltac configure_cases w d := repeat configure_step w d.

(** C10, as the code has it: unless debugging is on and the logger cannot
    be initialised (then the process exits), [providerConfigure] returns
    an error exactly when [api_key] or [base_url] is empty, and otherwise
    returns a client and a nil error, also when the Azure credential could
    not be built: the client then carries a nil credential. *)
Theorem providerConfigure_result (w : World) (p : Process) (d : ResourceData) :
  (Get_bool d "debug_info" = false
   ∨ (NewLogger (os_OpenFile w) true p).1.2 = None) →
  ((∃ client err, (run (providerConfigure w) p d).1 = Ok (client, Some err))
   ↔ (Get_string d "api_key" = "" ∨ Get_string d "base_url" = ""))
  ∧ (Get_string d "api_key" = "" ∨ Get_string d "base_url" = "" →
     (run (providerConfigure w) p d).1
     = Ok (None, Some "API key and base URL must be provided"))
  ∧ (Get_string d "api_key" ≠ "" ∧ Get_string d "base_url" ≠ "" →
     (run (providerConfigure w) p d).1
     = Ok (Some (NewCloudportalAPIClient
                   match azidentity_NewClientSecretCredential w
                           (Get_string d "tenantID") (Get_string d "clientID")
                           (Get_string d "clientSecret") with
                   | Success credential => Some credential
                   | Failure _ => None
                   end
                   (Get_string d "api_key") (Get_string d "base_url")
                   (Get_string d "tenantID") (Get_bool d "debug_info")),
           None))
  ∧ rd (run (providerConfigure w) p d).2 = d.
Proof.
  configure_cases w d; intros [Hquiet | Hlogger]; try discriminate;
    (split; [split; [intros (? & ? & Hret) | intros Hempty] |
       split; [intros Hempty | split; [intros [Hkey Hurl] |]]]);
    first [ reflexivity | discriminate | tauto
          | by eauto | by intuition eauto ].
Qed.

Lemma providerConfigure_result_witness :
  (run (providerConfigure world_readonly) initial_process quiet_config).1
  = Ok (Some (mkClient "https://portal/api" "key" None false "t"), None).
Proof.
  destruct (providerConfigure_result world_readonly initial_process
              quiet_config)
    as (_ & _ & Hclient & _).
  { left. vm_compute. reflexivity. }
  etrans; [apply Hclient |].
  - split; intros Hempty; vm_compute in Hempty; discriminate.
  - vm_compute. reflexivity.
Defined.

(** C10, as stated, fails: with debugging on and a log file that cannot
    be opened, the process exits although both [api_key] and [base_url]
    are given: no client and no error is returned. *)
Lemma providerConfigure_exits_when_logger_fails :
  Get_string debug_config "api_key" = "key"
  ∧ Get_string debug_config "base_url" = "https://portal/api"
  ∧ Get_bool debug_config "debug_info" = true
  ∧ (run (providerConfigure world_readonly) initial_process debug_config).1
    = Exit "Error initializing logger:logger not initialized".
Proof. do 3 (split; [vm_compute; reflexivity |]). vm_compute. reflexivity. Qed.

(** ** More on the provider: silence without a logger, [resourceCustomRead] *)

Lemma log_with_nil (severity message : string) (p : Process) :
  logInstance p = None → log_with severity message p = p.
Proof. intros Hnil. unfold log_with. by rewrite Hnil. Qed.

Lemma Close_nil (p : Process) : logInstance p = None → Close p = p.
Proof. intros Hnil. unfold Close. by rewrite Hnil. Qed.

Lemma silent_stable (p : Process) :
  logInstance p = None → logging_stable (λ q, q = p).
Proof.
  intros Hnil. unfold logging_stable, Debug, Info, Error.
  repeat match goal with |- _ ∧ _ => split end; intros; subst;
    auto using log_with_nil, Close_nil.
Qed.

(** X19: without debugging and without a logger the provider leaves no
    trace in the process.  As long as [logInstance] is nil, a read by a
    client whose [isdebug] is off and a configuration whose [debug_info]
    is off open no file, print nothing and leave the package state as it
    was; the configuration calls no collaborator over the network. *)
Theorem no_debug_no_logger_no_trace `{RangeOrder} (w : World)
    (cred : CloudportalAPIClient) (p : Process) (d : ResourceData) :
  logInstance p = None →
  (isdebug cred = false →
   proc (run (dataSourceTicketRead w cred) p d).2 = p)
  ∧ (Get_bool d "debug_info" = false →
     proc (run (providerConfigure w) p d).2 = p
     ∧ trace (run (providerConfigure w) p d).2 = []).
Proof.
  intros Hnil. split.
  - intros Hquiet.
    apply (read_keeps_logger_property (λ q, q = p)).
    + by apply silent_stable.
    + by rewrite Hquiet.
  - destruct (silent_stable p Hnil) as (HD & HI & HE & HC).
    configure_cases w d; intros Hquiet; try discriminate Hquiet;
      (split; [through_logging HD HI HE HC; reflexivity | reflexivity]).
Qed.

Lemma no_debug_no_logger_no_trace_witness :
  proc (run (dataSourceTicketRead world_200 sample_client)
          initial_process sample_resource).2 = initial_process
  ∧ proc (run (providerConfigure world_readonly) initial_process
            quiet_config).2 = initial_process.
Proof.
  destruct (no_debug_no_logger_no_trace world_200 sample_client
              initial_process sample_resource eq_refl) as [Hread _].
  destruct (no_debug_no_logger_no_trace world_readonly sample_client
              initial_process quiet_config eq_refl) as [_ Hconfigure].
  split; [exact (Hread eq_refl) |].
  apply Hconfigure. vm_compute. reflexivity.
Defined.

(** Unfolds a run of [resourceCustomRead]. *)
Ltac resource_cases w :=
  repeat first
    [ progress
        cbv beta iota zeta delta
          [run resourceCustomRead Client_Get d_Id defer emit mbind M_bind
           mret M_ret fst snd proc rd trace app]
    | match goal with
      | |- context [http_NewRequest w ?m ?u] =>
          destruct (http_NewRequest w m u) eqn:?
      | |- context [Client_Do w ?r] => destruct (Client_Do w r) eqn:?
      end ].

(** X20: [resourceCustomRead] only probes the API.  It sends one GET of
    [BaseURL/ticket/ID] without any header, asks for no token, never
    writes to the resource or the log, and returns nil for every response
    whatever its status, a 404 included; it fails only when the request
    cannot be built or sent, with the cause behind a fixed prefix. *)
Theorem resourceCustomRead_only_probes (w : World)
    (client : CloudportalAPIClient) (p : Process) (d : ResourceData) :
  rd (run (resourceCustomRead w client) p d).2 = d
  ∧ proc (run (resourceCustomRead w client) p d).2 = p
  ∧ count_events is_GetToken
      (trace (run (resourceCustomRead w client) p d).2) = 0%nat
  ∧ (count_events is_Do
       (trace (run (resourceCustomRead w client) p d).2) ≤ 1)%nat
  ∧ (∀ req answer,
       EvDo req answer ∈ trace (run (resourceCustomRead w client) p d).2 →
       req = {| req_Method := "GET";
                req_URL := BaseURL client +:+ "/ticket/" +:+ rd_id d;
                req_Header := ∅ |})
  ∧ (∀ req resp,
       EvDo req (Success resp)
         ∈ trace (run (resourceCustomRead w client) p d).2 →
       (run (resourceCustomRead w client) p d).1 = Ok None)
  ∧ (∀ e,
       (run (resourceCustomRead w client) p d).1 = Ok (Some e) →
       ∃ err, e = "error reading resource: " +:+ err).
Proof.
  resource_cases w; count_trace;
    repeat match goal with |- _ ∧ _ => split end;
    try reflexivity; try lia;
    try (intros req answer Hin; event_cases Hin; reflexivity);
    try (intros e [= <-]; by eexists);
    try (intros e Hres; discriminate Hres).
Qed.
